(** * sern-cli: the build command (configuration, plugins, watch supervision)

    A shallow embedding of [build], [CommandHandlerPlugin] and
    [CommandOnEndPlugin] of the build command, with the properties its
    design document states about them, and of [plugins] and [download] of
    the plugins command. *)

From Stdlib Require Import ZArith Lia.
From stdpp Require Import base option list strings gmap fin_maps pretty.

Local Open Scope string_scope.
Local Open Scope list_scope.
#[local] Set Warnings "-register-all,-clear-no-such-hyp".

(** ** JavaScript values and objects *)

Module JS.

(** The values a build configuration, an option record or a console line
    holds.  Objects are finite maps from property names to values. *)
Inductive value : Type :=
| VUndefined
| VNull
| VBool (b : bool)
| VStr (s : string)
| VArr (l : list value)
| VObj (o : gmap string value).

Abbreviation object := (gmap string value).

(** [o.k]: a missing property reads as [undefined]. *)
Definition get (o : object) (k : string) : value :=
  default VUndefined (o !! k).

(** [v.k] on an arbitrary value ([undefined] for a primitive without the
    property; the sources only read properties of objects). *)
Definition prop (v : value) (k : string) : value :=
  match v with
  | VObj o => get o k
  | _ => VUndefined
  end.

(** [a ?? b] *)
Definition nullish (a b : value) : value :=
  match a with
  | VUndefined | VNull => b
  | _ => a
  end.

(** Truthiness, as tested by [if], [!], [||], [&&] and [?:]. *)
Definition truthy (v : value) : bool :=
  match v with
  | VUndefined | VNull => false
  | VBool b => b
  | VStr s => negb (String.eqb s "")
  | VArr _ | VObj _ => true
  end.

(** [v === 's'] for a string literal. *)
Definition is_str (v : value) (s : string) : bool :=
  match v with
  | VStr s' => String.eqb s' s
  | _ => false
  end.

(** The template literal of a boolean. *)
Definition bool_str (b : bool) : string := if b then "true" else "false".

Definition chars (s : string) : list value :=
  (fun c => VStr (String c EmptyString)) <$> String.list_ascii_of_string s.

Definition indexed (l : list value) : object :=
  list_to_map (imap (fun i v => (pretty i, v)) l).

(** The own enumerable properties copied by [{...v}]. *)
Definition spread (v : value) : object :=
  match v with
  | VObj o => o
  | VArr l => indexed l
  | VStr s => indexed (chars s)
  | VUndefined | VNull | VBool _ => ∅
  end.

(** [{...a, ...b}]: properties of [b] replace those of [a], also when
    their value is [undefined]. *)
Definition merge (a b : object) : object := b ∪ a.

End JS.
Import JS.

(** ** Observable effects

    Everything [build] and the two plugins do to the outside world, in the
    order in which they do it. *)

Inductive Level := Log | Info | Warn | Error.

Inductive Effect : Type :=
| Console (lvl : Level) (args : list value)     (* console.log / info / warn / error *)
| GetConfig                                     (* getConfig() *)
| Import (path : string)                        (* await import('file:///' + path) *)
| ConfigDotenv (path : value)                   (* configDotenv({ path }) *)
| ParseTsConfig (path : value)                  (* parseTsConfig(path) *)
| Mkdir (path : string)                         (* mkdir(path, { recursive: true }) *)
| Glob (pattern : string)                       (* glob(pattern, ...) *)
| WriteFile (path content : string)             (* writeFile(path, content) *)
| EsbuildContext (opts : object)                (* esbuild.context(opts) *)
| Rebuild | Watch | Dispose                     (* ctx.rebuild() / watch() / dispose() *)
| Cancel (p : nat)                              (* currentProcess.cancel() *)
| ClearTimeout (t : nat)                        (* clearTimeout(t) *)
| SetTimeout (t : nat) (cmd : string) (ms : Z)  (* setTimeout(() => run cmd, ms) *)
| Execa (p : nat) (cmd : string)                (* execa(cmd, { stdio: 'inherit', shell: true }) *)
| PluginError (msg : string).                   (* an exception leaving an onEnd callback *)

(** ** The watch supervisor: [CommandOnEndPlugin] *)

Module Supervisor.

(** The three variables the plugin closes over. *)
Record Session := mkSession {
  isFirstBuild : bool;
  currentProcess : option nat;
  restartTimeout : option nat }.

(** The plugin's variables together with the part of the Node runtime they
    refer to: the pending timeouts (each with the command its callback
    captured), the subprocesses that were started and have neither exited
    nor been cancelled, the next unused handle, and the effects so far. *)
Record Runtime := mkRuntime {
  session : Session;
  timers : gmap nat string;
  alive : gset nat;
  fresh : nat;
  trace : list Effect }.

Definition init : Runtime :=
  mkRuntime (mkSession true None None) ∅ ∅ 0 [].

Definition emit (e : Effect) (rt : Runtime) : Runtime :=
  mkRuntime (session rt) (timers rt) (alive rt) (fresh rt) (trace rt ++ [e]).

Definition console_log (msg : string) : Runtime -> Runtime :=
  emit (Console Log [VStr msg]).

Definition with_session (f : Session -> Session) (rt : Runtime) : Runtime :=
  mkRuntime (f (session rt)) (timers rt) (alive rt) (fresh rt) (trace rt).

Definition set_isFirstBuild (b : bool) (s : Session) : Session :=
  mkSession b (currentProcess s) (restartTimeout s).
Definition set_currentProcess (p : option nat) (s : Session) : Session :=
  mkSession (isFirstBuild s) p (restartTimeout s).
Definition set_restartTimeout (t : option nat) (s : Session) : Session :=
  mkSession (isFirstBuild s) (currentProcess s) t.

(** [p.cancel()]: the subprocess is killed; cancelling one that has exited
    does nothing more. *)
Definition cancel (p : nat) (rt : Runtime) : Runtime :=
  emit (Cancel p)
    (mkRuntime (session rt) (timers rt) (alive rt ∖ {[p]}) (fresh rt) (trace rt)).

(** [clearTimeout(t)]: a pending timeout is dropped; one that has fired or
    was cleared is left alone. *)
Definition clearTimeout (t : nat) (rt : Runtime) : Runtime :=
  emit (ClearTimeout t)
    (mkRuntime (session rt) (delete t (timers rt)) (alive rt) (fresh rt) (trace rt)).

(** [restartTimeout = setTimeout(() => ... execa(cmd) ..., ms)] *)
Definition setTimeout (cmd : string) (ms : Z) (rt : Runtime) : Runtime :=
  let t := fresh rt in
  emit (SetTimeout t cmd ms)
    (mkRuntime (set_restartTimeout (Some t) (session rt))
       (<[t := cmd]> (timers rt)) (alive rt) (S t) (trace rt)).

(** [currentProcess = execa(cmd, ...)] *)
Definition execa (cmd : string) (rt : Runtime) : Runtime :=
  let p := fresh rt in
  emit (Execa p cmd)
    (mkRuntime (set_currentProcess (Some p) (session rt))
       (timers rt) ({[p]} ∪ alive rt) (S p) (trace rt)).

(** The arrow function that picks the package manager's start command by
    probing for a lock file; [None] is its [throw]. *)
Definition defaultCommand (pathExistsSync : string -> bool) : option string :=
  if pathExistsSync "package-lock.json" then Some "npm start"
  else if pathExistsSync "yarn.lock" then Some "yarn start"
  else if pathExistsSync "pnpm-lock.yaml" then Some "pnpm start"
  else if pathExistsSync "bun.lockb" then Some "bun start"
  else if pathExistsSync "bun.lock" then Some "bun start"
  else None.

(** [watchCommand || (() => ...)()] *)
Definition resolveCommand (watchCommand : option string)
    (pathExistsSync : string -> bool) : option string :=
  match watchCommand with
  | Some c => if String.eqb c "" then defaultCommand pathExistsSync else Some c
  | None => defaultCommand pathExistsSync
  end.

Inductive Outcome := Returned | Threw (msg : string).

(** The callback registered with [build.onEnd]. *)
Definition onEnd (watching : bool) (watchCommand : option string)
    (errors : list string) (pathExistsSync : string -> bool)
    (rt : Runtime) : Runtime * Outcome :=
  if negb watching || negb (Nat.eqb (length errors) 0) then (rt, Returned)
  else if isFirstBuild (session rt) then
    (with_session (set_isFirstBuild false) rt, Returned)
  else if bool_decide (watchCommand = Some "") then
    (console_log "[watch] no command provided, skipping" rt, Returned)
  else
    let rt1 :=
      match currentProcess (session rt) with
      | Some p =>
          with_session (set_currentProcess None)
            (cancel p (console_log "[watch] stopping previous process..." rt))
      | None => rt
      end in
    match resolveCommand watchCommand pathExistsSync with
    | None => (rt1, Threw "[watch] default package manager start command not found")
    | Some cmd =>
        let rt2 :=
          match restartTimeout (session rt1) with
          | Some t => clearTimeout t rt1
          | None => rt1
          end in
        (setTimeout cmd 1500
           (console_log "[watch] debouncing command for 1.5 seconds..." rt2),
         Returned)
    end.

(** The hook's [if (currentProcess) { ... }], named for the proofs. *)
Definition stopPrevious (rt : Runtime) : Runtime :=
  match currentProcess (session rt) with
  | Some p =>
      with_session (set_currentProcess None)
        (cancel p (console_log "[watch] stopping previous process..." rt))
  | None => rt
  end.

(** The hook's [if (restartTimeout) clearTimeout(restartTimeout)], named for
    the proofs. *)
Definition clearPending (rt : Runtime) : Runtime :=
  match restartTimeout (session rt) with
  | Some t => clearTimeout t rt
  | None => rt
  end.

(** The timeout's callback, run by the event loop when timeout [t] is due;
    a timeout that was cleared never runs. *)
Definition timeout (t : nat) (rt : Runtime) : Runtime :=
  match timers rt !! t with
  | None => rt
  | Some cmd =>
      execa cmd
        (console_log ("[watch] running command: " +:+ cmd)
           (mkRuntime (session rt) (delete t (timers rt)) (alive rt)
              (fresh rt) (trace rt)))
  end.

(** Subprocess [p] ends by itself; [failure] is the error execa rejects
    with.  The [catch] handler logs it (a cancelled subprocess rejects with
    [isCanceled] and is not logged). *)
Definition exited (p : nat) (failure : option string) (rt : Runtime) : Runtime :=
  if bool_decide (p ∈ alive rt) then
    let rt' := mkRuntime (session rt) (timers rt) (alive rt ∖ {[p]})
                 (fresh rt) (trace rt) in
    match failure with
    | Some msg =>
        emit (Console Error [VStr ("[watch] command execution error: " +:+ msg)]) rt'
    | None => rt'
    end
  else rt.

(** What the event loop delivers during a session: a build of the engine
    completes (with its errors, and the lock files present at that moment),
    a timeout becomes due, a subprocess ends. *)
Inductive Event :=
| BuildEnd (errors : list string) (pathExistsSync : string -> bool)
| TimeoutDue (t : nat)
| ProcessExit (p : nat) (failure : option string).

(** The engine runs each [onEnd] callback inside a [try]: an exception is
    reported as a plugin error and the session goes on. *)
Definition step (watching : bool) (watchCommand : option string)
    (rt : Runtime) (ev : Event) : Runtime :=
  match ev with
  | BuildEnd errors fs =>
      match onEnd watching watchCommand errors fs rt with
      | (rt', Returned) => rt'
      | (rt', Threw msg) => emit (PluginError msg) rt'
      end
  | TimeoutDue t => timeout t rt
  | ProcessExit p failure => exited p failure rt
  end.

Definition run (watching : bool) (watchCommand : option string)
    (evs : list Event) (rt : Runtime) : Runtime :=
  foldl (step watching watchCommand) rt evs.

(** A build completion without errors. *)
Definition succeeded (ev : Event) : bool :=
  match ev with
  | BuildEnd [] _ => true
  | _ => false
  end.

(** The commands of the subprocesses started in a trace, oldest first. *)
Definition spawned (tr : list Effect) : list string :=
  omap (fun e => match e with Execa _ cmd => Some cmd | _ => None end) tr.

(** The timeouts scheduled in a trace. *)
Definition scheduled (tr : list Effect) : list nat :=
  omap (fun e => match e with SetTimeout t _ _ => Some t | _ => None end) tr.

(** The subprocesses cancelled in a trace. *)
Definition cancelled (tr : list Effect) : list nat :=
  omap (fun e => match e with Cancel p => Some p | _ => None end) tr.

(** What ties the plugin's variables to the runtime: the only timeout that
    can be pending is [restartTimeout], the only subprocess that can be
    alive is [currentProcess], and while a timeout is pending no subprocess
    is alive. *)
Record inv (rt : Runtime) : Prop := mkInv {
  inv_timers : forall t, t ∈ dom (timers rt) -> restartTimeout (session rt) = Some t;
  inv_alive : forall p, p ∈ alive rt -> currentProcess (session rt) = Some p;
  inv_excl : timers rt = ∅ \/ alive rt = ∅;
  inv_fresh : forall t, restartTimeout (session rt) = Some t -> t < fresh rt }.

(** With the empty command configured a session never schedules, starts or
    cancels anything. *)
Definition idle (rt : Runtime) : Prop :=
  timers rt = ∅ /\ alive rt = ∅ /\ currentProcess (session rt) = None /\
  spawned (trace rt) = [] /\ scheduled (trace rt) = [] /\ cancelled (trace rt) = [].

(** Project directories for the examples: one holding a single file, and
    one holding none of the lock files. *)
Definition onlyFile (name : string) : string -> bool := String.eqb name.
Definition noLockFile : string -> bool := fun _ => false.

End Supervisor.

(** ** The generated artifacts: [Preprocessor] *)

Module Preprocessor.
Section Writers.

(** The TypeScript type under which a define's replacement text is
    declared, and the project configuration emitted for a module format;
    the design fixes neither in detail. *)
Variable typeOf : value -> string.
Variable projectConfiguration : value -> string.

Definition declaration (entry : string * value) : string :=
  "declare var " +:+ entry.1 +:+ ": " +:+ typeOf entry.2 +:+ ";" +:+ String (Ascii.ascii_of_nat 10) "".

(** Modelled from the spec: the text of the ambient type-declaration file
    (built in [utilities/preprocessor], which is not among the sources):
    one typed global per define. *)
Definition ambientDeclarations (define : object) : string :=
  String.concat "" (declaration <$> map_to_list define).

(** Modelled from the spec: [Preprocessor.writeAmbientFile] (in
    [utilities/preprocessor], which is not among the sources) writes the
    declarations of the defines to the given path through the file writer it
    is handed, as one full overwrite. *)
Definition writeAmbientFile (path : string) (define : object) : list Effect :=
  [WriteFile path (ambientDeclarations define)].

(** Modelled from the spec: [Preprocessor.writeTsConfig] (in
    [utilities/preprocessor], which is not among the sources) writes the
    project configuration matching the module format to the given path, as
    one full overwrite. *)
Definition writeTsConfig (format : value) (path : string) : list Effect :=
  [WriteFile path (projectConfiguration format)].

End Writers.

End Preprocessor.

(** ** The build command *)

Module Build.

Inductive Exn :=
| InvalidArgumentError (msg : string)
| AssertionError (msg : string)
| TypeError (msg : string)
| Thrown (by_ : string).          (* raised by a collaborator and passed on *)

(** The options object commander hands to [build]. *)
Record Options := mkOptions {
  supressWarnings : bool;
  watch : bool;
  watchCommand : option string;
  project : option string;
  format : option string;
  mode : option string;
  sourceMaps : option bool;
  tsconfig : option string;
  env : option string }.

(** What [build] reads from its surroundings. *)
Record World := mkWorld {
  resolve : list string -> string;            (* p.resolve(...) *)
  pathExists : string -> bool;                (* pathExistsSync / pathExists *)
  getConfig : Exn + object;                   (* the sern.config.json object *)
  importDefault : string -> Exn + value;      (* (await import(url)).default *)
  processEnv : gmap string string;            (* process.env on entry *)
  envFile : value -> gmap string string;      (* the variables of an env file *)
  parseTsConfig : value -> Exn + value;
  glob : string -> list string;
  defaultEsbuild : value -> value -> object;
  defVersion : Exn + string;  (* JSON.stringify(require(p.resolve('package.json')).version) *)
  typeOf : value -> string;                   (* see Preprocessor *)
  projectConfiguration : value -> string;     (* see Preprocessor *)
  firstBuild : list string }.                 (* the errors of ctx.rebuild() *)

(** Computations that print, write and may throw. *)
Definition M (A : Type) : Type := list Effect * (Exn + A).

Definition ret {A} (a : A) : M A := ([], inr a).
Definition throw {A} (e : Exn) : M A := ([], inl e).
Definition bind {A B} (m : M A) (k : A -> M B) : M B :=
  match m with
  | (tr, inl e) => (tr, inl e)
  | (tr, inr a) => let '(tr', r) := k a in (tr ++ tr', r)
  end.
Definition tell (tr : list Effect) : M unit := (tr, inr tt).
Definition lift {A} (r : Exn + A) : M A := ([], r).

(** [try { m } catch (e) { h; throw e }] *)
Definition rethrowing {A} (m : M A) (h : list Effect) : M A :=
  match m with
  | (tr, inl e) => (tr ++ h, inl e)
  | ok => ok
  end.

Notation "x <- m ;; k" := (bind m (fun x => k))
  (at level 100, m at next level, right associativity).
Notation "m ;;; k" := (bind m (fun _ => k))
  (at level 100, right associativity).

Definition ofString (o : option string) : value :=
  match o with Some s => VStr s | None => VUndefined end.
Definition ofBool (o : option bool) : value :=
  match o with Some b => VBool b | None => VUndefined end.

(** A configured command as the [watchCommand?: string] the plugin declares.
    A string is the command; any other falsy value ([undefined], [null],
    [false]) behaves in the hook exactly as an absent command does (it is not
    [=== ''], and [||] falls through to the lock-file probe).  A truthy value
    that is not a string is outside the declared type: the hook would hand
    it to [execa] as it is, and what happens then is not modelled, so there
    is no answer for it. *)
Definition asCommand (v : value) : option (option string) :=
  match v with
  | VStr s => Some (Some s)
  | _ => if truthy v then None else Some None
  end.

(** The elements [...v] contributes to an array literal. *)
Definition iterate (v : value) : Exn + list value :=
  match v with
  | VArr l => inr l
  | VStr s => inr (chars s)
  | _ => inl (TypeError "buildConfig.dropLabels is not iterable")
  end.

Definition endsWith (s suffix : string) : bool :=
  let n := String.length s in
  let m := String.length suffix in
  Nat.leb m n && String.eqb (String.substring (n - m) m s) suffix.

Definition VALID_EXTENSIONS : list string := [".ts"; ".js"].

Definition quote : string := String (Ascii.ascii_of_nat 34) "".
Definition newline : string := String (Ascii.ascii_of_nat 10) "".

(** The last line [build] prints when the project configuration cannot be
    parsed. *)
Definition extendHint : string :=
  "It should have at least extend the generated one sern makes." +:+ newline +:+
  "                         { " +:+ quote +:+ "extends" +:+ quote +:+ ": " +:+
  quote +:+ "./.sern/tsconfig.json" +:+ quote +:+ " }".

Definition resolveBuildConfig (path : option string) (language : value) : value :=
  if is_str language "javascript"
  then nullish (ofString path) (VStr "jsconfig.json")
  else nullish (ofString path) (VStr "tsconfig.json").

(** The object literal [defaultBuildConfig] of [build]. *)
Definition defaultBuildConfig (options : Options) (sernConfig : object) : object :=
  list_to_map
    [("defineVersion", VBool true);
     ("format", nullish (ofString (format options)) (VStr "esm"));
     ("mode", nullish (ofString (mode options)) (VStr "development"));
     ("dropLabels", VArr []);
     ("sourcemap", ofBool (sourceMaps options));
     ("tsconfig", resolveBuildConfig (tsconfig options) (get sernConfig "language"));
     ("env", nullish (ofString (env options)) (VStr ".env"));
     ("include", VArr []);
     ("watch", VObj {[ "command" := ofString (watchCommand options) ]})].

(** The pre-build hook: [setup] of [CommandHandlerPlugin], on the engine's
    [initialOptions]; it returns them as it leaves them. *)
Definition CommandHandlerPlugin (w : World) (buildConfig : object)
    (ambientFilePath sernTsConfigPath : string) (initialOptions : object) : M object :=
  version <- (if truthy (get buildConfig "defineVersion")
              then lift (defVersion w) else ret "undefined") ;;
  let define : object :=
    <[ "__VERSION__" := VStr version ]>
      (<[ "__PROD__" := VStr (bool_str (is_str (get buildConfig "mode") "production")) ]>
         (<[ "__DEV__" := VStr (bool_str (is_str (get buildConfig "mode") "development")) ]>
            (spread (nullish (get buildConfig "define") (VObj ∅))))) in
  tell (Preprocessor.writeTsConfig (projectConfiguration w)
          (get buildConfig "format") sernTsConfigPath) ;;;
  tell (Preprocessor.writeAmbientFile (typeOf w) ambientFilePath define) ;;;
  ret (<[ "define" := VObj define ]> initialOptions).

(** What [build] leaves behind when it returns: the options the engine
    builds with (the plugin list apart) and the watch supervisor after the
    first build ([None] when the configured command is outside the type the
    supervisor declares, see [asCommand]). *)
Record Started := mkStarted {
  engineOptions : object;
  supervisor : option Supervisor.Runtime }.

(** Configuration loading: [build] up to its [assert], that is the merge of
    the command line, the configuration file and [NODE_ENV]; it yields
    [sernConfig] and [buildConfig]. *)
Definition loadConfig (w : World) (options : Options) : M (object * object) :=
  (if negb (supressWarnings options)
   then tell [Console Info [VStr "EXPERIMENTAL: This API has not been stabilized. add -W or --suppress-warnings flag to suppress"]]
   else ret tt) ;;;
  (if negb (watch options) && truthy (ofString (watchCommand options))
   then throw (InvalidArgumentError "enable watch to use --watch-command")
   else ret tt) ;;;
  tell [GetConfig] ;;;
  sernConfig <- lift (getConfig w) ;;
  let buildConfigPath := resolve w [default "sern.build.js" (project options)] in
  let defaults := defaultBuildConfig options sernConfig in
  buildConfig <-
    (if pathExists w buildConfigPath then
       fileConfig <- rethrowing
                       (tell [Import buildConfigPath] ;;;
                        lift (importDefault w buildConfigPath))
                       [Console Error [VStr "Could not find buildConfigPath"]] ;;
       ret (merge defaults (spread fileConfig))
     else
       tell [Console Log [VStr "No build config found, defaulting"]] ;;;
       ret defaults) ;;
  tell [ConfigDotenv (get buildConfig "env")] ;;;
  let processEnv' := processEnv w ∪ envFile w (get buildConfig "env") in
  buildConfig <-
    (if truthy (ofString (processEnv' !! "NODE_ENV")) then
       tell [Console Log [VStr "NODE_ENV:";
                          VStr "Found NODE_ENV variable, setting `mode` to this."]] ;;;
       ret (<[ "mode" := ofString (processEnv' !! "NODE_ENV") ]> buildConfig)
     else ret buildConfig) ;;
  ret (sernConfig, buildConfig).

(** [build].  The engine calls the [setup] of both plugins inside
    [esbuild.context], runs the [onEnd] callback at the end of
    [ctx.rebuild()], and rejects that call when the build had errors. *)
Definition build (w : World) (options : Options) : M Started :=
  loaded <- loadConfig w options ;;
  let '(sernConfig, buildConfig) := loaded in
  (if is_str (get buildConfig "mode") "development"
      || is_str (get buildConfig "mode") "production"
   then ret tt
   else throw (AssertionError "NODE_ENV is not `production` or `development`")) ;;;
  config <- rethrowing
              (tell [ParseTsConfig (get buildConfig "tsconfig")] ;;;
               config <- lift (parseTsConfig w (get buildConfig "tsconfig")) ;;
               (if truthy (prop config "extends")
                then tell [Console Warn [VStr "Extend the generated tsconfig"]]
                else ret tt) ;;;
               ret config)
              [Console Error [VStr "no tsconfig / jsconfig found"];
               Console Error [VStr ("Please create a " +:+
                  (if is_str (get sernConfig "language") "javascript"
                   then "jsconfig.json" else "tsconfig.json"))];
               Console Error [VStr extendHint]] ;;
  tell [Console Log [VStr "Building with:"];
        Console Log [VStr " "; VStr "defineVersion"; get buildConfig "defineVersion"];
        Console Log [VStr " "; VStr "format"; get buildConfig "format"];
        Console Log [VStr " "; VStr "mode"; get buildConfig "mode"];
        Console Log [VStr " "; VStr "tsconfig"; get buildConfig "tsconfig"];
        Console Log [VStr " "; VStr "env"; get buildConfig "env"];
        Console Log [VStr " "; VStr "sourceMaps"; get buildConfig "sourcemap"]] ;;;
  let sernDir := resolve w [".sern"] in
  let ambientFilePath := resolve w [sernDir; "ambient.d.ts"] in
  let sernTsConfigPath := resolve w [sernDir; "tsconfig.json"] in
  let genDir := resolve w [sernDir; "generated"] in
  (if negb (pathExists w genDir)
   then tell [Console Log [VStr "Making .sern/generated dir, does not exist"];
              Mkdir genDir]
   else ret tt) ;;;
  let pattern := "src/**/*{" +:+ String.concat "," VALID_EXTENSIONS +:+ "}" in
  tell [Glob pattern] ;;;
  let entryPoints := filter (fun f => endsWith f ".d.ts" = false) (glob w pattern) in
  labels <- lift (iterate (get buildConfig "dropLabels")) ;;
  let opts : object :=
    <[ "dropLabels" :=
         VArr (VStr (if is_str (get buildConfig "mode") "production"
                     then "__DEV__" else "__PROD__") :: labels) ]>
      (merge {[ "entryPoints" := VArr (VStr <$> entryPoints);
                "sourcemap" := get buildConfig "sourcemap" ]}
             (defaultEsbuild w (get buildConfig "format") (get buildConfig "tsconfig"))) in
  tell [EsbuildContext opts] ;;;
  opts <- CommandHandlerPlugin w buildConfig ambientFilePath sernTsConfigPath opts ;;
  let watchCommand := asCommand (prop (get buildConfig "watch") "command") in
  tell [Rebuild] ;;;
  let sup := (fun command =>
                Supervisor.step (watch options) command Supervisor.init
                  (Supervisor.BuildEnd (firstBuild w) (pathExists w)))
             <$> watchCommand in
  (if firstBuild w is [] then ret tt else throw (Thrown "Build failed")) ;;;
  tell [if watch options then Watch else Dispose] ;;;
  ret (mkStarted opts sup).

(** The fields the configuration file contributes: those of its default
    export, none when there is no file. *)
Definition fileFields (w : World) (options : Options) : object :=
  let buildConfigPath := resolve w [default "sern.build.js" (project options)] in
  if pathExists w buildConfigPath then
    match importDefault w buildConfigPath with
    | inr fileConfig => spread fileConfig
    | inl _ => ∅
    end
  else ∅.

(** [process.env.NODE_ENV] once [configDotenv] has loaded the env file the
    configuration names. *)
Definition nodeEnv (w : World) (buildConfig : object) : option string :=
  (processEnv w ∪ envFile w (get buildConfig "env")) !! "NODE_ENV".

(** The effects that write a file, create a directory or reach the
    bundling engine. *)
Definition writesOrBuilds (e : Effect) : bool :=
  match e with
  | WriteFile _ _ | Mkdir _ | EsbuildContext _ | Rebuild | Watch | Dispose => true
  | _ => false
  end.

(** A TypeScript project for the examples: [sern.build.js] exports
    [{ format: 'esm' }], and the environment sets [NODE_ENV] as given. *)
Definition tsProject (nodeEnv : option string) : World :=
  mkWorld (String.concat "/")
    (String.eqb "sern.build.js")
    (inr {[ "language" := VStr "typescript" ]})
    (fun _ => inr (VObj {[ "format" := VStr "esm" ]}))
    (match nodeEnv with Some e => {[ "NODE_ENV" := e ]} | None => ∅ end)
    (fun _ => ∅)
    (fun _ => inr (VObj ∅))
    (fun _ => ["src/index.ts"; "src/env.d.ts"])
    (fun _ _ => ∅)
    (inr (quote +:+ "1.0.0" +:+ quote))
    (fun _ => "string")
    (fun _ => "{}")
    [].

(** [sern build --format cjs] *)
Definition formatCjs : Options :=
  mkOptions false false None None (Some "cjs") None None None None.


End Build.

(** ** Reading a session's trace *)

Module Accounting.

(** The handles of the subprocesses started in a trace, oldest first. *)
Definition started (tr : list Effect) : list nat :=
  omap (fun e => match e with Execa p _ => Some p | _ => None end) tr.

Definition isPluginError (e : Effect) : bool :=
  match e with PluginError _ => true | _ => false end.

(** The commands the lock-file probe can answer with. *)
Definition startScripts : list string :=
  ["npm start"; "yarn start"; "pnpm start"; "bun start"].

(** The calls that reach the bundling engine. *)
Definition isEngineCall (e : Effect) : bool :=
  match e with
  | EsbuildContext _ | Rebuild | Watch | Dispose => true
  | _ => false
  end.

(** The notice [build] opens with unless warnings are suppressed. *)
Definition banner : list Effect :=
  [Console Info [VStr "EXPERIMENTAL: This API has not been stabilized. add -W or --suppress-warnings flag to suppress"]].

Definition engineCalls (tr : list Effect) : list Effect :=
  omap (fun e => if isEngineCall e then Some e else None) tr.

(** What the trace tells about cancellation: a handle is cancelled once,
    only after it was started and never while it is [currentProcess];
    handles are handed out in increasing order. *)
Record cancelInv (rt : Supervisor.Runtime) : Prop := mkCancelInv {
  ci_nodup : NoDup (Supervisor.cancelled (Supervisor.trace rt));
  ci_started : forall p, p ∈ Supervisor.cancelled (Supervisor.trace rt) ->
               p ∈ started (Supervisor.trace rt);
  ci_current : forall p, p ∈ Supervisor.cancelled (Supervisor.trace rt) ->
               Supervisor.currentProcess (Supervisor.session rt) <> Some p;
  ci_fresh : forall p, p ∈ started (Supervisor.trace rt) -> p < Supervisor.fresh rt;
  ci_known : forall p, Supervisor.currentProcess (Supervisor.session rt) = Some p ->
             p ∈ started (Supervisor.trace rt) }.

End Accounting.

(** ** The plugins command: [plugins] and [download] *)

Module Plugins.

(** What the command reads from its surroundings. *)
Record World := mkWorld {
  selection : option (list string);  (* (await prompt([await pluginsQ()])).list *)
  fetch : string -> option string;   (* the text of the response to GET url;
                                        None when the request or the read fails *)
  cwd : string;                      (* process.cwd() *)
  fromCwd : string -> string;        (* utilities/fromCwd *)
  existsSync : string -> bool }.     (* fs.existsSync when the command starts *)

(** What the command does, in order.  The calls of [fs] are taken to
    succeed. *)
Inductive Action :=
| Prompt
| Fetch (url : string)
| MkdirSync (dir : string)           (* fs.mkdirSync(dir, { recursive: true }) *)
| WriteFileSync (path data : string)
| ConsoleLog (msg : string).

#[global] Instance Action_eq_dec : EqDecision Action.
Proof. solve_decision. Defined.

Inductive Outcome := Returned | Raised (msg : string) | Exited (code : Z).

Definition slash : Ascii.ascii := Ascii.ascii_of_nat 47.

Fixpoint hasSlash (s : string) : bool :=
  match s with
  | EmptyString => false
  | String c r => Ascii.eqb c slash || hasSlash r
  end.

(** The last piece of [s.split('/')], scanning [s] with the piece read so
    far in [acc]. *)
Fixpoint pop (acc s : string) : string :=
  match s with
  | EmptyString => acc
  | String c r =>
      if Ascii.eqb c slash then pop EmptyString r
      else pop (acc +:+ String c EmptyString) r
  end.

(** [url.split('/').pop()] *)
Definition lastSegment (url : string) : string := pop "" url.

Definition downloadFailed : string := "Download failed! Kindly contact developers".

(** [fs.existsSync(dir)] after the actions in [log]. *)
Definition existsNow (w : World) (log : list Action) (dir : string) : bool :=
  existsSync w dir || bool_decide (MkdirSync dir ∈ log).

Definition download (w : World) (url : string) (log : list Action)
    : list Action * Outcome :=
  let log := log ++ [Fetch url] in
  match fetch w url with
  | None => (log, Raised downloadFailed)
  | Some data =>
      if String.eqb data "" then (log, Raised downloadFailed)
      else
        let dir := fromCwd w "/src/plugins" in
        let filedir := cwd w +:+ "/src/plugins/" +:+ lastSegment url in
        let log := if existsNow w log dir then log else log ++ [MkdirSync dir] in
        (log ++ [WriteFileSync filedir data], Returned)
  end.

(** [for await (const url of e) await download(url)] *)
Fixpoint downloadAll (w : World) (e : list string) (log : list Action)
    : list Action * Outcome :=
  match e with
  | [] => (log, Returned)
  | url :: e' =>
      match download w url log with
      | (log', Returned) => downloadAll w e' log'
      | failed => failed
      end
  end.

Definition plugins (w : World) : list Action * Outcome :=
  match selection w with
  | None => ([Prompt], Exited 1)
  | Some e =>
      match downloadAll w e [Prompt] with
      | (log, Returned) =>
          (log ++ [ConsoleLog ("Successfully downloaded plugin(s):" +:+ Build.newline +:+
                               String.concat Build.newline (lastSegment <$> e))],
           Returned)
      | failed => failed
      end
  end.

(** The URLs requested, the files written and the directories created in a
    log, oldest first. *)
Definition fetched (log : list Action) : list string :=
  omap (fun a => match a with Fetch url => Some url | _ => None end) log.
Definition written (log : list Action) : list (string * string) :=
  omap (fun a => match a with WriteFileSync p d => Some (p, d) | _ => None end) log.
Definition made (log : list Action) : list string :=
  omap (fun a => match a with MkdirSync d => Some d | _ => None end) log.

(** The file a plugin is saved to and the text saved. *)
Definition target (w : World) (url : string) : string * string :=
  (cwd w +:+ "/src/plugins/" +:+ lastSegment url, default "" (fetch w url)).

(** A response with a text to save. *)
Definition usable (w : World) (url : string) : bool :=
  match fetch w url with
  | Some data => negb (String.eqb data "")
  | None => false
  end.

(** The plugins directory is created at most once, and only when it was
    missing. *)
Definition tidy (w : World) (log : list Action) : Prop :=
  made log = [] \/
  (existsSync w (fromCwd w "/src/plugins") = false /\
   made log = [fromCwd w "/src/plugins"]).

(** A registry for the examples: two plugins can be fetched, one answers
    with an empty body, anything else cannot be reached. *)
Definition registry (choice : option (list string)) (pluginsDir : bool) : World :=
  mkWorld choice
    (fun url =>
       if String.eqb url "https://sern.dev/plugins/publish.ts" then Some "export const publish = 1"
       else if String.eqb url "https://sern.dev/plugins/cooldown.ts" then Some "export const cooldown = 2"
       else if String.eqb url "https://sern.dev/plugins/empty.ts" then Some ""
       else None)
    "/home/bot"
    (fun d => "/home/bot" +:+ d)
    (fun _ => pluginsDir).

End Plugins.

(** ** Reading what [build] hands to the engine *)

Module BuildView.

(** The entry points [build] finds: the files the glob matches, type
    declarations left out. *)
Definition entryPoints (w : Build.World) : list string :=
  filter (fun f => Build.endsWith f ".d.ts" = false)
    (Build.glob w ("src/**/*{" +:+ String.concat "," Build.VALID_EXTENSIONS +:+ "}")).

(** The options object [build] passes to [esbuild.context], the plugin
    list apart. *)
Definition contextOptions (w : Build.World) (buildConfig : object)
    (labels : list value) : object :=
  <[ "dropLabels" :=
       VArr (VStr (if is_str (get buildConfig "mode") "production"
                   then "__DEV__" else "__PROD__") :: labels) ]>
    (merge {[ "entryPoints" := VArr (VStr <$> entryPoints w);
              "sourcemap" := get buildConfig "sourcemap" ]}
           (Build.defaultEsbuild w (get buildConfig "format")
              (get buildConfig "tsconfig"))).

(** The three names the pre-build hook defines itself. *)
Definition reserved : list string := ["__DEV__"; "__PROD__"; "__VERSION__"].

End BuildView.

(** ** Properties of the watch supervisor *)

Section SupervisorFacts.
Import Supervisor.

Lemma inv_init : inv init.
Proof. split; cbn; [set_solver | set_solver | by left | done]. Qed.

Lemma inv_timers_sub rt :
  inv rt -> forall t, restartTimeout (session rt) = Some t ->
  delete t (timers rt) = ∅.
Proof.
  intros I t Ht. apply map_eq. intros k. rewrite lookup_empty.
  destruct (decide (t = k)) as [->|Hne]; [by rewrite lookup_delete_eq|].
  rewrite lookup_delete_ne by done.
  destruct (timers rt !! k) eqn:E; [|done].
  assert (k ∈ dom (timers rt)) as Hk by (apply elem_of_dom; eauto).
  apply (inv_timers _ I) in Hk. congruence.
Qed.

Lemma inv_timers_none rt :
  inv rt -> restartTimeout (session rt) = None -> timers rt = ∅.
Proof.
  intros I Hn. apply map_eq. intros k. rewrite lookup_empty.
  destruct (timers rt !! k) eqn:E; [|done].
  assert (k ∈ dom (timers rt)) as Hk by (apply elem_of_dom; eauto).
  apply (inv_timers _ I) in Hk. congruence.
Qed.

Lemma inv_alive_sub rt :
  inv rt -> forall p, currentProcess (session rt) = Some p ->
  alive rt ∖ {[p]} = ∅.
Proof.
  intros I p Hp. apply set_eq. intros q. split; [|set_solver].
  intros [Hq Hne]%elem_of_difference.
  apply (inv_alive _ I) in Hq. set_solver.
Qed.

Lemma inv_alive_none rt :
  inv rt -> currentProcess (session rt) = None -> alive rt = ∅.
Proof.
  intros I Hn. apply set_eq. intros q. split; [|set_solver].
  intros Hq. apply (inv_alive _ I) in Hq. congruence.
Qed.

Lemma inv_emit e rt : inv rt -> inv (emit e rt).
Proof. intros [? ? ? ?]. by split. Qed.

Lemma stopPrevious_spec rt :
  inv rt ->
  inv (stopPrevious rt) /\ alive (stopPrevious rt) = ∅ /\
  timers (stopPrevious rt) = timers rt /\
  restartTimeout (session (stopPrevious rt)) = restartTimeout (session rt) /\
  isFirstBuild (session (stopPrevious rt)) = isFirstBuild (session rt) /\
  fresh (stopPrevious rt) = fresh rt.
Proof.
  intros I. unfold stopPrevious.
  destruct (currentProcess (session rt)) as [p|] eqn:Hp.
  - pose proof (inv_alive_sub _ I _ Hp) as Hal. cbn.
    split; [|by repeat split]. split; cbn.
    + apply (inv_timers _ I).
    + intros q Hq. rewrite Hal in Hq. set_solver.
    + by right.
    + apply (inv_fresh _ I).
  - pose proof (inv_alive_none _ I Hp). split; [done|]. by repeat split.
Qed.

Lemma clearPending_spec rt :
  inv rt ->
  timers (clearPending rt) = ∅ /\ alive (clearPending rt) = alive rt /\
  fresh (clearPending rt) = fresh rt /\
  session (clearPending rt) = session rt.
Proof.
  intros I. unfold clearPending.
  destruct (restartTimeout (session rt)) as [t|] eqn:Ht; cbn.
  - split; [by apply inv_timers_sub|done].
  - split; [by apply inv_timers_none|done].
Qed.

Lemma onEnd_unfold watchCommand fs rt :
  isFirstBuild (session rt) = false -> watchCommand <> Some "" ->
  onEnd true watchCommand [] fs rt =
    match resolveCommand watchCommand fs with
    | None => (stopPrevious rt,
               Threw "[watch] default package manager start command not found")
    | Some cmd =>
        (setTimeout cmd 1500
           (console_log "[watch] debouncing command for 1.5 seconds..."
              (clearPending (stopPrevious rt))), Returned)
    end.
Proof.
  intros Hf Hc. unfold onEnd. cbn. rewrite Hf.
  rewrite bool_decide_eq_false_2 by done. reflexivity.
Qed.

Lemma inv_onEnd watching watchCommand errors fs rt :
  inv rt -> inv (onEnd watching watchCommand errors fs rt).1.
Proof.
  intros I. unfold onEnd.
  destruct (negb watching || negb (Nat.eqb (length errors) 0)); [done|].
  destruct (isFirstBuild (session rt)) eqn:Hf.
  { destruct I. by split. }
  case_bool_decide; [by apply inv_emit|].
  fold (stopPrevious rt).
  destruct (stopPrevious_spec rt I) as (I1 & Hal & _).
  destruct (resolveCommand watchCommand fs) as [cmd|]; [|done].
  fold (clearPending (stopPrevious rt)).
  destruct (clearPending_spec _ I1) as (Ht & Hal' & Hfr & Hs).
  split; cbn.
  - intros t. rewrite Ht, insert_empty, dom_singleton_L.
    intros ->%elem_of_singleton. done.
  - rewrite Hal', Hal. set_solver.
  - right. by rewrite Hal'.
  - intros t [= <-]. lia.
Qed.

Lemma inv_timeout t rt : inv rt -> inv (timeout t rt).
Proof.
  intros I. unfold timeout. destruct (timers rt !! t) as [cmd|] eqn:E; [|done].
  assert (restartTimeout (session rt) = Some t) as Ht.
  { apply (inv_timers _ I), elem_of_dom. eauto. }
  assert (alive rt = ∅) as Hal.
  { destruct (inv_excl _ I) as [He|]; [|done]. by rewrite He in E. }
  split; cbn.
  - rewrite (inv_timers_sub _ I _ Ht). set_solver.
  - rewrite Hal. set_solver.
  - left. by apply inv_timers_sub.
  - intros t' Ht'. pose proof (inv_fresh _ I t' Ht'). lia.
Qed.

Lemma inv_exited p failure rt : inv rt -> inv (exited p failure rt).
Proof.
  intros I. unfold exited. case_bool_decide; [|done].
  assert (inv (mkRuntime (session rt) (timers rt) (alive rt ∖ {[p]})
                 (fresh rt) (trace rt))) as I'.
  { split; cbn.
    - apply (inv_timers _ I).
    - intros q [Hq _]%elem_of_difference. by apply (inv_alive _ I).
    - destruct (inv_excl _ I) as [?|Hal]; [by left|right].
      rewrite Hal. set_solver.
    - apply (inv_fresh _ I). }
  destruct failure; [by apply inv_emit|done].
Qed.

Lemma inv_step watching watchCommand rt ev :
  inv rt -> inv (step watching watchCommand rt ev).
Proof.
  intros I. destruct ev as [errors fs|t|p failure]; cbn.
  - pose proof (inv_onEnd watching watchCommand errors fs rt I) as I'.
    destruct (onEnd watching watchCommand errors fs rt) as [rt' [|msg]]; cbn in I';
      [done|by apply inv_emit].
  - by apply inv_timeout.
  - by apply inv_exited.
Qed.

Lemma inv_run watching watchCommand evs rt :
  inv rt -> inv (run watching watchCommand evs rt).
Proof.
  revert rt. induction evs as [|ev evs IH]; intros rt I; [done|].
  cbn. apply IH. by apply inv_step.
Qed.

(** The hook and the exit of a subprocess start nothing. *)
Lemma spawned_app tr tr' : spawned (tr ++ tr') = spawned tr ++ spawned tr'.
Proof. apply omap_app. Qed.

Lemma scheduled_app tr tr' : scheduled (tr ++ tr') = scheduled tr ++ scheduled tr'.
Proof. apply omap_app. Qed.

Lemma cancelled_app tr tr' : cancelled (tr ++ tr') = cancelled tr ++ cancelled tr'.
Proof. apply omap_app. Qed.

Lemma trace_stopPrevious rt :
  trace (stopPrevious rt) =
  trace rt ++ match currentProcess (session rt) with
              | Some p => [Console Log [VStr "[watch] stopping previous process..."];
                           Cancel p]
              | None => []
              end.
Proof.
  unfold stopPrevious. destruct (currentProcess (session rt)); cbn.
  - by rewrite <- app_assoc.
  - by rewrite app_nil_r.
Qed.

Lemma trace_clearPending rt :
  trace (clearPending rt) =
  trace rt ++ match restartTimeout (session rt) with
              | Some t => [ClearTimeout t]
              | None => []
              end.
Proof.
  unfold clearPending. destruct (restartTimeout (session rt)); cbn; [done|].
  by rewrite app_nil_r.
Qed.

Lemma spawned_stopPrevious rt : spawned (trace (stopPrevious rt)) = spawned (trace rt).
Proof.
  rewrite trace_stopPrevious, spawned_app.
  destruct (currentProcess (session rt)); cbn; by rewrite app_nil_r.
Qed.

Lemma scheduled_stopPrevious rt :
  scheduled (trace (stopPrevious rt)) = scheduled (trace rt).
Proof.
  rewrite trace_stopPrevious, scheduled_app.
  destruct (currentProcess (session rt)); cbn; by rewrite app_nil_r.
Qed.

Lemma spawned_clearPending rt : spawned (trace (clearPending rt)) = spawned (trace rt).
Proof.
  rewrite trace_clearPending, spawned_app.
  destruct (restartTimeout (session rt)); cbn; by rewrite app_nil_r.
Qed.

Lemma spawned_onEnd watching watchCommand errors fs rt :
  spawned (trace (onEnd watching watchCommand errors fs rt).1) = spawned (trace rt).
Proof.
  unfold onEnd.
  destruct (negb watching || negb (Nat.eqb (length errors) 0)); [done|].
  destruct (isFirstBuild (session rt)); [done|].
  case_bool_decide; cbn.
  { rewrite spawned_app. cbn. by rewrite app_nil_r. }
  fold (stopPrevious rt).
  destruct (resolveCommand watchCommand fs) as [cmd|]; cbn.
  - fold (clearPending (stopPrevious rt)).
    rewrite !spawned_app, spawned_clearPending, spawned_stopPrevious. cbn.
    by rewrite !app_nil_r.
  - apply spawned_stopPrevious.
Qed.

Lemma spawned_step_BuildEnd watching watchCommand errors fs rt :
  spawned (trace (step watching watchCommand rt (BuildEnd errors fs))) =
  spawned (trace rt).
Proof.
  cbn. pose proof (spawned_onEnd watching watchCommand errors fs rt) as H.
  destruct (onEnd watching watchCommand errors fs rt) as [rt' [|msg]]; cbn in *;
    [done|]. rewrite spawned_app, H. cbn. by rewrite app_nil_r.
Qed.

Lemma isFirstBuild_step watching watchCommand rt ev :
  isFirstBuild (session rt) = false ->
  isFirstBuild (session (step watching watchCommand rt ev)) = false.
Proof.
  intros Hf. destruct ev as [errors fs|t|p failure]; cbn.
  - unfold onEnd.
    destruct (negb watching || negb (Nat.eqb (length errors) 0)); [done|].
    rewrite Hf. case_bool_decide; [done|].
    destruct (resolveCommand watchCommand fs);
      destruct (currentProcess (session rt)); cbn;
      try destruct (restartTimeout (session rt)); done.
  - unfold timeout. by destruct (timers rt !! t).
  - unfold exited. case_bool_decide; [|done]. by destruct failure.
Qed.

Lemma run_cons watching watchCommand ev evs rt :
  run watching watchCommand (ev :: evs) rt =
  run watching watchCommand evs (step watching watchCommand rt ev).
Proof. reflexivity. Qed.

(** With no timeout pending, timeouts coming due do nothing. *)
Lemma run_timeouts_none watching watchCommand ts rt :
  timers rt = ∅ ->
  run watching watchCommand (TimeoutDue <$> ts) rt = rt.
Proof.
  intros He. induction ts as [|t ts IH]; [done|].
  rewrite fmap_cons, run_cons. cbn [step]. unfold timeout.
  by rewrite He, lookup_empty.
Qed.

(** With exactly one timeout pending, its command is started once, when it
    comes due. *)
Lemma run_timeouts_one watching watchCommand ts t cmd rt :
  timers rt = {[ t := cmd ]} -> t ∈ ts ->
  spawned (trace (run watching watchCommand (TimeoutDue <$> ts) rt)) =
  spawned (trace rt) ++ [cmd].
Proof.
  intros Ht. induction ts as [|t' ts IH]; intros Hin.
  { by apply elem_of_nil in Hin. }
  rewrite fmap_cons, run_cons. cbn [step]. unfold timeout at 1. rewrite Ht.
  destruct (decide (t' = t)) as [->|Hne].
  - rewrite lookup_singleton_eq, run_timeouts_none.
    + cbn. rewrite <- app_assoc, spawned_app. cbn. done.
    + cbn. by rewrite delete_singleton_eq.
  - rewrite lookup_singleton_ne by done. apply IH.
    apply elem_of_cons in Hin as [?|?]; [congruence|done].
Qed.

Lemma idle_step_empty_command watching rt ev :
  idle rt -> idle (step watching (Some "") rt ev).
Proof.
  intros (Ht & Hal & Hp & Hs & Hc & Hk).
  destruct ev as [errors fs|t|p failure]; cbn.
  - unfold onEnd.
    destruct (negb watching || negb (Nat.eqb (length errors) 0)); [done|].
    destruct (isFirstBuild (session rt)); [done|].
    rewrite bool_decide_eq_true_2 by done. cbn.
    unfold idle. cbn. rewrite spawned_app, scheduled_app, cancelled_app, Hs, Hc, Hk.
    done.
  - unfold timeout. by rewrite Ht, lookup_empty.
  - unfold exited. rewrite Hal, bool_decide_eq_false_2; [done|set_solver].
Qed.

Lemma idle_run_empty_command watching evs rt :
  idle rt -> idle (run watching (Some "") evs rt).
Proof.
  revert rt. induction evs as [|ev evs IH]; intros rt H; [done|].
  rewrite run_cons. by apply IH, idle_step_empty_command.
Qed.

(** A successful rebuild after the first, with a command that resolves:
    the state the hook leaves. *)
Lemma step_schedules watchCommand fs cmd rt :
  inv rt -> isFirstBuild (session rt) = false -> watchCommand <> Some "" ->
  resolveCommand watchCommand fs = Some cmd ->
  let rt' := step true watchCommand rt (BuildEnd [] fs) in
  timers rt' = {[ fresh rt := cmd ]} /\
  trace rt' = trace (clearPending (stopPrevious rt)) ++
              [Console Log [VStr "[watch] debouncing command for 1.5 seconds..."];
               SetTimeout (fresh rt) cmd 1500].
Proof.
  intros I Hf Hc Hr rt'. unfold rt'. cbn [step].
  rewrite onEnd_unfold, Hr by done.
  destruct (stopPrevious_spec rt I) as (I1 & _ & _ & _ & _ & Hfr).
  destruct (clearPending_spec _ I1) as (Ht & _ & Hfr' & _).
  cbn. rewrite Ht, Hfr', Hfr, insert_empty, <- app_assoc. done.
Qed.

End SupervisorFacts.

Section SupervisorClaims.
Import Supervisor.

(** C2. Whatever the event loop delivers during a session, at most one
    subprocess started by the supervisor is alive; and whenever a timeout
    (the only thing that starts a subprocess) is pending, none is alive:
    the hook that scheduled it had cancelled the previous one first. *)
Theorem at_most_one_live_subprocess (watching : bool)
    (watchCommand : option string) (evs : list Event) :
  let rt := run watching watchCommand evs init in
  size (alive rt) <= 1 /\
  (forall t cmd, timers rt !! t = Some cmd ->
     alive rt = ∅ /\ alive (timeout t rt) = {[fresh rt]}) /\
  size (timers rt) <= 1.
Proof.
  intros rt. assert (inv rt) as I by apply inv_run, inv_init.
  split; [|split].
  - destruct (currentProcess (session rt)) as [p|] eqn:Hp.
    + assert (alive rt ⊆ {[p]}) as Hsub.
      { intros q Hq. apply (inv_alive _ I) in Hq.
        apply elem_of_singleton. congruence. }
      apply subseteq_size in Hsub. by rewrite size_singleton in Hsub.
    + rewrite (inv_alive_none _ I Hp), size_empty. lia.
  - intros t cmd Ht.
    assert (alive rt = ∅) as Hal.
    { destruct (inv_excl _ I) as [He|]; [|done]. by rewrite He in Ht. }
    split; [done|]. unfold timeout. rewrite Ht. cbn. rewrite Hal. set_solver.
  - destruct (restartTimeout (session rt)) as [t|] eqn:Ht.
    + assert (dom (timers rt) ⊆ {[t]}) as Hsub.
      { intros k Hk. apply (inv_timers _ I) in Hk.
        apply elem_of_singleton. congruence. }
      apply subseteq_size in Hsub.
      by rewrite size_singleton, size_dom in Hsub.
    + rewrite (inv_timers_none _ I Ht), map_size_empty. lia.
Qed.

Lemma at_most_one_live_subprocess_witness :
  let rt := run true None
              [BuildEnd [] noLockFile; BuildEnd [] (onlyFile "yarn.lock");
               TimeoutDue 0; BuildEnd [] (onlyFile "yarn.lock")] init in
  size (alive rt) <= 1 /\ alive rt = ∅ /\ alive (timeout 2 rt) = {[ 3 ]}.
Proof.
  intros rt.
  destruct (at_most_one_live_subprocess true None
              [BuildEnd [] noLockFile; BuildEnd [] (onlyFile "yarn.lock");
               TimeoutDue 0; BuildEnd [] (onlyFile "yarn.lock")])
    as (Hsize & Hpending & _).
  split; [exact Hsize|].
  exact (Hpending 2 "yarn start" ltac:(reflexivity)).
Defined.

(** Until a build succeeds nothing at all happens. *)
Lemma step_before_first_build (watchCommand : option string) (ev : Event) :
  succeeded ev = false -> step true watchCommand init ev = init.
Proof. by destruct ev as [[|e errors] fs|t|p failure]. Qed.

Lemma run_before_first_build (watchCommand : option string) (evs : list Event) :
  Forall (fun ev => succeeded ev = false) evs ->
  run true watchCommand evs init = init.
Proof.
  induction 1 as [|ev evs Hev _ IH]; [done|].
  cbn. by rewrite step_before_first_build.
Qed.

Lemma run_app watching watchCommand evs1 evs2 rt :
  run watching watchCommand (evs1 ++ evs2) rt =
  run watching watchCommand evs2 (run watching watchCommand evs1 rt).
Proof. apply foldl_app. Qed.

(** C4. In watch mode the first build that succeeds, whatever came before
    it and whatever command is configured, only clears the first-build
    flag: no timeout is scheduled, no subprocess is started or cancelled,
    nothing is printed. *)
Theorem first_successful_build_only_marks (watchCommand : option string)
    (evs : list Event) (fs : string -> bool) :
  Forall (fun ev => succeeded ev = false) evs ->
  run true watchCommand (evs ++ [BuildEnd [] fs]) init =
    mkRuntime (mkSession false None None) ∅ ∅ 0 [].
Proof.
  intros H. by rewrite run_app, run_before_first_build.
Qed.

Lemma first_successful_build_only_marks_witness :
  run true (Some "node dist/index.js")
    ([BuildEnd ["Expected ';'"] (fun _ => true); TimeoutDue 0;
      ProcessExit 0 None] ++ [BuildEnd [] (fun _ => true)]) init =
    mkRuntime (mkSession false None None) ∅ ∅ 0 [].
Proof.
  apply (first_successful_build_only_marks (Some "node dist/index.js")).
  repeat constructor.
Defined.

(** C5. A build that reports errors leaves the session as it was: the hook
    returns at once, so no subprocess is cancelled or started and no
    timeout is cleared or scheduled. *)
Theorem failed_build_is_ignored (watching : bool) (watchCommand : option string)
    (errors : list string) (fs : string -> bool) (rt : Runtime) :
  errors <> [] ->
  onEnd watching watchCommand errors fs rt = (rt, Returned).
Proof.
  intros H. unfold onEnd. destruct errors; [done|].
  cbn. by rewrite orb_true_r.
Qed.

Lemma failed_build_is_ignored_witness :
  let rt := run true None
              [BuildEnd [] (fun _ => true); BuildEnd [] (fun _ => true);
               TimeoutDue 0; BuildEnd [] (fun _ => true)] init in
  onEnd true None ["Could not resolve './x'"] (fun _ => true) rt = (rt, Returned).
Proof.
  intros rt. by apply (failed_build_is_ignored true None).
Defined.

(** C3, as the code has it. Two successful rebuilds after the first build,
    the second arriving while the timeout of the first is still pending,
    and a command resolving at the second (the configured one if it is not
    empty, else the start command of the lock file found): the timeout
    pending after the first rebuild is cleared, exactly one timeout stays
    pending, the two hooks start nothing, and when that timeout comes due
    exactly one subprocess is started, with the command resolved at the
    second rebuild. *)
Theorem rebuilds_within_debounce_spawn_once (watchCommand : option string)
    (evs : list Event) (fs1 fs2 : string -> bool) (cmd : string)
    (ts1 ts2 : list nat) :
  let rt0 := run true watchCommand evs init in
  let rt1 := step true watchCommand rt0 (BuildEnd [] fs1) in
  let rt2 := step true watchCommand rt1 (BuildEnd [] fs2) in
  isFirstBuild (session rt0) = false ->
  watchCommand <> Some "" ->
  resolveCommand watchCommand fs2 = Some cmd ->
  timers rt2 = {[ fresh rt1 := cmd ]} /\
  (forall t1, t1 ∈ dom (timers rt1) ->
     ClearTimeout t1 ∈ trace rt2 /\ timers rt2 !! t1 = None) /\
  spawned (trace rt2) = spawned (trace rt0) /\
  spawned (trace (run true watchCommand
                    (TimeoutDue <$> (ts1 ++ fresh rt1 :: ts2)) rt2)) =
    spawned (trace rt0) ++ [cmd].
Proof.
  intros rt0 rt1 rt2 Hf Hc Hr.
  assert (inv rt0) as I0 by apply inv_run, inv_init.
  assert (inv rt1) as I1 by by apply inv_step.
  assert (isFirstBuild (session rt1) = false) as Hf1 by by apply isFirstBuild_step.
  destruct (step_schedules watchCommand fs2 cmd rt1 I1 Hf1 Hc Hr) as [Ht2 Htr2].
  fold rt2 in Ht2, Htr2.
  assert (spawned (trace rt2) = spawned (trace rt0)) as Hs.
  { unfold rt2, rt1. by rewrite !spawned_step_BuildEnd. }
  split; [done|]. split; [|split; [done|]].
  - intros t1 Hin. pose proof (inv_timers _ I1 t1 Hin) as Hrt.
    split.
    + rewrite Htr2, trace_clearPending.
      destruct (stopPrevious_spec rt1 I1) as (_ & _ & _ & -> & _).
      rewrite Hrt. set_solver.
    + rewrite Ht2. apply lookup_singleton_ne.
      pose proof (inv_fresh _ I1 t1 Hrt). lia.
  - rewrite (run_timeouts_one _ _ _ _ _ _ Ht2), Hs; [done|]. set_solver.
Qed.

Lemma rebuilds_within_debounce_spawn_once_witness :
  let rt0 := run true None [BuildEnd [] noLockFile] init in
  let rt1 := step true None rt0 (BuildEnd [] (onlyFile "yarn.lock")) in
  let rt2 := step true None rt1 (BuildEnd [] (onlyFile "pnpm-lock.yaml")) in
  timers rt2 = {[ fresh rt1 := "pnpm start" ]} /\
  (forall t1, t1 ∈ dom (timers rt1) ->
     ClearTimeout t1 ∈ trace rt2 /\ timers rt2 !! t1 = None) /\
  spawned (trace rt2) = spawned (trace rt0) /\
  spawned (trace (run true None (TimeoutDue <$> ([0] ++ fresh rt1 :: [])) rt2)) =
    spawned (trace rt0) ++ ["pnpm start"].
Proof.
  apply (rebuilds_within_debounce_spawn_once None [BuildEnd [] noLockFile]
           (onlyFile "yarn.lock") (onlyFile "pnpm-lock.yaml") "pnpm start" [0] []);
    [reflexivity | done | reflexivity].
Defined.

(** C3 as stated fails: with the empty command configured, two successful
    rebuilds after the first build schedule no timeout and no subprocess is
    ever started, whichever timeouts come due afterwards. *)
Lemma empty_command_rebuilds_spawn_nothing :
  let rt := run true (Some "")
              [BuildEnd [] (onlyFile "package-lock.json");
               BuildEnd [] (onlyFile "package-lock.json");
               BuildEnd [] (onlyFile "package-lock.json");
               TimeoutDue 0; TimeoutDue 1; TimeoutDue 2] init in
  spawned (trace rt) = [] /\ scheduled (trace rt) = [] /\ timers rt = ∅.
Proof. vm_compute. done. Qed.

(** C6. A restart with no command configured and no lock file to be found
    fails on its own: the hook throws, which the engine reports as a plugin
    error; that attempt schedules and starts nothing; and the session goes
    on, so that the next successful rebuild that finds a lock file schedules
    that package manager's start command. *)
Theorem missing_start_command_skips_restart (evs : list Event)
    (fs fs' : string -> bool) (cmd : string) :
  let rt0 := run true None evs init in
  let rt1 := step true None rt0 (BuildEnd [] fs) in
  let rt2 := step true None rt1 (BuildEnd [] fs') in
  isFirstBuild (session rt0) = false ->
  defaultCommand fs = None ->
  defaultCommand fs' = Some cmd ->
  (onEnd true None [] fs rt0).2 =
    Threw "[watch] default package manager start command not found" /\
  last (trace rt1) =
    Some (PluginError "[watch] default package manager start command not found") /\
  scheduled (trace rt1) = scheduled (trace rt0) /\
  spawned (trace rt1) = spawned (trace rt0) /\
  isFirstBuild (session rt1) = false /\
  timers rt2 = {[ fresh rt1 := cmd ]}.
Proof.
  intros rt0 rt1 rt2 Hf Hn Hs.
  assert (inv rt0) as I0 by apply inv_run, inv_init.
  assert (inv rt1) as I1 by by apply inv_step.
  assert (isFirstBuild (session rt1) = false) as Hf1 by by apply isFirstBuild_step.
  assert (rt1 = emit (PluginError "[watch] default package manager start command not found")
                  (stopPrevious rt0)) as E1.
  { unfold rt1. cbn [step]. rewrite onEnd_unfold by done.
    cbn [resolveCommand]. by rewrite Hn. }
  split; [|split; [|split; [|split; [|split]]]].
  - rewrite onEnd_unfold by done. cbn [resolveCommand]. by rewrite Hn.
  - rewrite E1. cbn. by rewrite last_snoc.
  - rewrite E1. cbn. rewrite scheduled_app, scheduled_stopPrevious. cbn.
    by rewrite app_nil_r.
  - unfold rt1. apply spawned_step_BuildEnd.
  - done.
  - by apply (step_schedules None fs' cmd rt1).
Qed.

Lemma missing_start_command_skips_restart_witness :
  let rt0 := run true None
               [BuildEnd [] noLockFile; BuildEnd [] (onlyFile "bun.lock");
                TimeoutDue 0] init in
  let rt1 := step true None rt0 (BuildEnd [] noLockFile) in
  let rt2 := step true None rt1 (BuildEnd [] (onlyFile "yarn.lock")) in
  (onEnd true None [] noLockFile rt0).2 =
    Threw "[watch] default package manager start command not found" /\
  last (trace rt1) =
    Some (PluginError "[watch] default package manager start command not found") /\
  scheduled (trace rt1) = scheduled (trace rt0) /\
  spawned (trace rt1) = spawned (trace rt0) /\
  isFirstBuild (session rt1) = false /\
  timers rt2 = {[ fresh rt1 := "yarn start" ]}.
Proof.
  apply (missing_start_command_skips_restart
           [BuildEnd [] noLockFile; BuildEnd [] (onlyFile "bun.lock"); TimeoutDue 0]
           noLockFile (onlyFile "yarn.lock") "yarn start"); reflexivity.
Defined.

(** C7, as the code has it. With the empty string configured no run step is
    ever performed: nothing is scheduled, started or cancelled during the
    whole session. With no command configured the hook falls back on the
    package manager: a successful rebuild after the first schedules the
    start command of the lock file found, and the timeout starts it. *)
Theorem empty_command_no_run_absent_command_default (watching : bool)
    (evs evs' : list Event) (fs : string -> bool) (cmd : string) :
  let rtE := run watching (Some "") evs init in
  let rt0 := run true None evs' init in
  let rt1 := step true None rt0 (BuildEnd [] fs) in
  isFirstBuild (session rt0) = false ->
  defaultCommand fs = Some cmd ->
  (spawned (trace rtE) = [] /\ scheduled (trace rtE) = [] /\
   cancelled (trace rtE) = []) /\
  timers rt1 = {[ fresh rt0 := cmd ]} /\
  spawned (trace (timeout (fresh rt0) rt1)) = spawned (trace rt0) ++ [cmd].
Proof.
  intros rtE rt0 rt1 Hf Hd. split.
  - assert (idle rtE) as (_ & _ & _ & ? & ? & ?); [|done].
    apply idle_run_empty_command. by repeat split.
  - assert (inv rt0) as I0 by apply inv_run, inv_init.
    destruct (step_schedules None fs cmd rt0 I0 Hf) as [Ht _]; [done..|].
    fold rt1 in Ht. split; [done|].
    rewrite <- (spawned_step_BuildEnd true None [] fs rt0). fold rt1.
    apply (run_timeouts_one true None [fresh rt0] _ _ _ Ht). set_solver.
Qed.

Lemma empty_command_no_run_absent_command_default_witness :
  let rtE := run true (Some "")
               [BuildEnd [] (onlyFile "yarn.lock");
                BuildEnd [] (onlyFile "yarn.lock"); TimeoutDue 0] init in
  let rt0 := run true None [BuildEnd [] noLockFile] init in
  let rt1 := step true None rt0 (BuildEnd [] (onlyFile "bun.lockb")) in
  (spawned (trace rtE) = [] /\ scheduled (trace rtE) = [] /\
   cancelled (trace rtE) = []) /\
  timers rt1 = {[ fresh rt0 := "bun start" ]} /\
  spawned (trace (timeout (fresh rt0) rt1)) = spawned (trace rt0) ++ ["bun start"].
Proof.
  apply (empty_command_no_run_absent_command_default true
           [BuildEnd [] (onlyFile "yarn.lock");
            BuildEnd [] (onlyFile "yarn.lock"); TimeoutDue 0]
           [BuildEnd [] noLockFile] (onlyFile "bun.lockb") "bun start");
    reflexivity.
Defined.

(** C7 as stated fails: with no command configured, the second successful
    build of a project holding [package-lock.json] schedules a run step and
    the timeout starts [npm start]. *)
Lemma absent_command_runs_npm_start :
  let rt := run true None
              [BuildEnd [] (onlyFile "package-lock.json");
               BuildEnd [] (onlyFile "package-lock.json");
               TimeoutDue 0] init in
  scheduled (trace rt) = [0] /\ spawned (trace rt) = ["npm start"].
Proof. vm_compute. done. Qed.

End SupervisorClaims.

(** ** Properties of the build command *)

Section BuildFacts.
Import Build Preprocessor.

Lemma loadConfig_inv w options tr sernConfig buildConfig :
  loadConfig w options = (tr, inr (sernConfig, buildConfig)) ->
  getConfig w = inr sernConfig /\
  buildConfig =
    (let merged := merge (defaultBuildConfig options sernConfig)
                     (fileFields w options) in
     match nodeEnv w merged with
     | Some e => if String.eqb e "" then merged else <[ "mode" := VStr e ]> merged
     | None => merged
     end) /\
  Forall (fun e => writesOrBuilds e = false) tr.
Proof.
  unfold loadConfig, fileFields, nodeEnv, merge.
  generalize (resolve w [default "sern.build.js" (project options)]) as path.
  generalize (defaultBuildConfig options) as defaults.
  intros defaults path.
  destruct (getConfig w) as [e|sc] eqn:Hg;
  destruct (negb (supressWarnings options));
  destruct (negb (watch options) && truthy (ofString (watchCommand options)));
  cbn [bind tell ret throw lift rethrowing app]; try (intros [=]; fail).
  all: destruct (pathExists w path); [destruct (importDefault w path) as [e|fc]|];
    cbn [bind tell ret throw lift rethrowing app]; try (intros [=]; fail).
  all: rewrite ?(left_id_L ∅ (∪)).
  all: match goal with |- context [(?a ∪ ?b) !! "NODE_ENV"] =>
         destruct ((a ∪ b) !! "NODE_ENV") as [ne|] eqn:Hne end.
  all: cbn [ofString truthy negb].
  all: try destruct (String.eqb ne "") eqn:He;
    cbn [bind tell ret throw lift rethrowing app negb].
  all: intros [= <- <- <-].
  all: rewrite Hne, ?He.
  all: (split; [done|split; [done|]]).
  all: repeat constructor.
Qed.

Lemma lookup_merge (a b : object) (k : string) :
  merge a b !! k = match b !! k with Some v => Some v | None => a !! k end.
Proof.
  unfold merge. rewrite lookup_union.
  by destruct (b !! k), (a !! k).
Qed.




(** C8. When the mode that results from the merge and the [NODE_ENV]
    override is neither [development] nor [production], [build] fails on its
    assertion, and up to that point it has written no file, created no
    directory and not reached the bundling engine. *)
Theorem invalid_mode_fails_before_writing (w : World) (options : Options)
    (tr : list Effect) (sernConfig buildConfig : object) :
  loadConfig w options = (tr, inr (sernConfig, buildConfig)) ->
  is_str (get buildConfig "mode") "development" = false ->
  is_str (get buildConfig "mode") "production" = false ->
  build w options =
    (tr, inl (AssertionError "NODE_ENV is not `production` or `development`")) /\
  Forall (fun e => writesOrBuilds e = false) tr.
Proof.
  intros H Hd Hp. split.
  - unfold build. rewrite H. cbn [bind]. rewrite Hd, Hp.
    cbn [orb throw bind]. by rewrite app_nil_r.
  - by apply loadConfig_inv in H as (_ & _ & ?).
Qed.

Lemma invalid_mode_fails_before_writing_witness :
  let w := tsProject (Some "staging") in
  build w formatCjs =
    ((loadConfig w formatCjs).1,
     inl (AssertionError "NODE_ENV is not `production` or `development`")) /\
  Forall (fun e => writesOrBuilds e = false) (loadConfig w formatCjs).1.
Proof.
  intros w.
  eapply (invalid_mode_fails_before_writing w formatCjs (loadConfig w formatCjs).1);
    [by vm_compute | reflexivity | reflexivity].
Defined.

(** With a valid mode the same project is written to and built. *)
Example valid_mode_writes_and_builds :
  (build (tsProject (Some "production")) formatCjs).2 ≠
    inl (AssertionError "NODE_ENV is not `production` or `development`") /\
  omap (fun e => match e with
                 | Mkdir d => Some d
                 | WriteFile f _ => Some f
                 | EsbuildContext _ => Some "esbuild.context"
                 | Rebuild => Some "rebuild"
                 | Watch => Some "watch"
                 | Dispose => Some "dispose"
                 | _ => None
                 end) (build (tsProject (Some "production")) formatCjs).1
  = [".sern/generated"; "esbuild.context"; ".sern/tsconfig.json";
     ".sern/ambient.d.ts"; "rebuild"; "dispose"].
Proof. by vm_compute. Qed.

(** The pre-build hook writes exactly these two artifacts. *)
Lemma CommandHandlerPlugin_writes w buildConfig ambientFilePath sernTsConfigPath
    initialOptions tr opts define :
  CommandHandlerPlugin w buildConfig ambientFilePath sernTsConfigPath initialOptions
    = (tr, inr opts) ->
  opts !! "define" = Some (VObj define) ->
  tr = writeTsConfig (Build.projectConfiguration w) (get buildConfig "format")
         sernTsConfigPath ++
       writeAmbientFile (Build.typeOf w) ambientFilePath define.
Proof.
  unfold CommandHandlerPlugin.
  destruct (truthy (get buildConfig "defineVersion"));
    [destruct (defVersion w) as [e|v]|];
    cbn [bind tell ret lift app]; intros [= <- <-]; try done.
  all: rewrite lookup_insert_eq; by intros [= <-].
Qed.

(** C10. Unless reading the package version throws (which it can only do
    when version injection is on), the define map the pre-build hook hands
    to the engine binds [__DEV__] and [__PROD__] to the text of
    [mode === 'development'] and [mode === 'production'], and binds
    [__VERSION__] too: to the text [undefined] when version injection is
    off, to the package version otherwise. *)
Theorem define_map_keys (w : World) (buildConfig : object)
    (ambientFilePath sernTsConfigPath : string) (initialOptions : object) :
  match CommandHandlerPlugin w buildConfig ambientFilePath sernTsConfigPath
          initialOptions with
  | (_, inr opts) =>
      exists (define : object) (version : string),
        opts !! "define" = Some (VObj define) /\
        define !! "__DEV__" =
          Some (VStr (bool_str (is_str (get buildConfig "mode") "development"))) /\
        define !! "__PROD__" =
          Some (VStr (bool_str (is_str (get buildConfig "mode") "production"))) /\
        define !! "__VERSION__" = Some (VStr version) /\
        if truthy (get buildConfig "defineVersion")
        then defVersion w = inr version
        else version = "undefined"
  | (_, inl e) =>
      truthy (get buildConfig "defineVersion") = true /\ defVersion w = inl e
  end.
Proof.
  unfold CommandHandlerPlugin.
  destruct (truthy (get buildConfig "defineVersion")) eqn:Hv;
    [destruct (defVersion w) as [e|v] eqn:Hd|];
    cbn [bind tell ret lift app]; [done|..].
  all: eexists _, _; split; [apply lookup_insert_eq|].
  all: rewrite lookup_insert_eq, !lookup_insert_ne, !lookup_insert_eq by done.
  all: by rewrite ?lookup_insert_ne, ?lookup_insert_eq by done.
Qed.

End BuildFacts.

(** ** More on the watch supervisor *)

Section SupervisorExtras.
Import Supervisor Accounting.

(** The ways a completed build can leave the session. *)
Lemma step_BuildEnd_cases watching watchCommand errors fs rt :
  let rt' := step watching watchCommand rt (BuildEnd errors fs) in
  rt' = rt \/
  rt' = with_session (set_isFirstBuild false) rt \/
  rt' = console_log "[watch] no command provided, skipping" rt \/
  (watchCommand <> Some "" /\ resolveCommand watchCommand fs = None /\
   rt' = emit (PluginError "[watch] default package manager start command not found")
           (stopPrevious rt)) \/
  (exists cmd, watchCommand <> Some "" /\
     resolveCommand watchCommand fs = Some cmd /\
     rt' = setTimeout cmd 1500
             (console_log "[watch] debouncing command for 1.5 seconds..."
                (clearPending (stopPrevious rt)))).
Proof.
  cbn [step]. unfold onEnd.
  destruct (negb watching || negb (Nat.eqb (length errors) 0)); [by left|].
  destruct (isFirstBuild (session rt)); [by right; left|].
  case_bool_decide as Hc; [by right; right; left|].
  fold (stopPrevious rt).
  destruct (resolveCommand watchCommand fs) as [cmd|] eqn:Hr.
  - fold (clearPending (stopPrevious rt)). right; right; right; right. by exists cmd.
  - right; right; right; left. done.
Qed.

Lemma started_app tr tr' : started (tr ++ tr') = started tr ++ started tr'.
Proof. apply omap_app. Qed.

Lemma cancelled_stopPrevious rt :
  cancelled (trace (stopPrevious rt)) =
  cancelled (trace rt) ++ match currentProcess (session rt) with
                          | Some p => [p]
                          | None => []
                          end.
Proof.
  rewrite trace_stopPrevious, cancelled_app.
  by destruct (currentProcess (session rt)).
Qed.

Lemma started_stopPrevious rt : started (trace (stopPrevious rt)) = started (trace rt).
Proof.
  rewrite trace_stopPrevious, started_app.
  destruct (currentProcess (session rt)); cbn; by rewrite app_nil_r.
Qed.

Lemma started_clearPending rt : started (trace (clearPending rt)) = started (trace rt).
Proof.
  rewrite trace_clearPending, started_app.
  destruct (restartTimeout (session rt)); cbn; by rewrite app_nil_r.
Qed.

Lemma cancelled_clearPending rt :
  cancelled (trace (clearPending rt)) = cancelled (trace rt).
Proof.
  rewrite trace_clearPending, cancelled_app.
  destruct (restartTimeout (session rt)); cbn; by rewrite app_nil_r.
Qed.

Lemma scheduled_clearPending rt :
  scheduled (trace (clearPending rt)) = scheduled (trace rt).
Proof.
  rewrite trace_clearPending, scheduled_app.
  destruct (restartTimeout (session rt)); cbn; by rewrite app_nil_r.
Qed.

Lemma session_clearPending rt : session (clearPending rt) = session rt.
Proof. unfold clearPending. by destruct (restartTimeout (session rt)). Qed.

Lemma fresh_clearPending rt : fresh (clearPending rt) = fresh rt.
Proof. unfold clearPending. by destruct (restartTimeout (session rt)). Qed.

Lemma fresh_stopPrevious rt : fresh (stopPrevious rt) = fresh rt.
Proof. unfold stopPrevious. by destruct (currentProcess (session rt)). Qed.

Lemma currentProcess_stopPrevious rt :
  currentProcess (session (stopPrevious rt)) = None.
Proof. unfold stopPrevious. by destruct (currentProcess (session rt)) eqn:E. Qed.

Lemma timers_stopPrevious rt : timers (stopPrevious rt) = timers rt.
Proof. unfold stopPrevious. by destruct (currentProcess (session rt)). Qed.

Lemma timers_clearPending_lookup rt t cmd :
  timers (clearPending rt) !! t = Some cmd -> timers rt !! t = Some cmd.
Proof.
  unfold clearPending. destruct (restartTimeout (session rt)) as [t'|]; cbn; [|done].
  intros H. apply lookup_delete_Some in H. tauto.
Qed.

(** X1. With watching off the hook does nothing at all, whatever the event
    loop delivers: the session stays as it was created. *)
Theorem watch_disabled_nothing_happens (watchCommand : option string)
    (evs : list Event) :
  run false watchCommand evs init = init.
Proof.
  induction evs as [|ev evs IH]; [done|].
  rewrite run_cons.
  assert (step false watchCommand init ev = init) as ->; [|done].
  by destruct ev.
Qed.

(** Every command started, and every command waiting in a timeout, is one
    the hook resolved. *)
Lemma spawned_resolved watching watchCommand (Q : string -> Prop) :
  (forall fs cmd, watchCommand <> Some "" ->
     resolveCommand watchCommand fs = Some cmd -> Q cmd) ->
  forall evs rt,
    map_Forall (fun _ cmd => Q cmd) (timers rt) ->
    Forall Q (spawned (trace rt)) ->
    map_Forall (fun _ cmd => Q cmd) (timers (run watching watchCommand evs rt)) /\
    Forall Q (spawned (trace (run watching watchCommand evs rt))).
Proof.
  intros HQ evs. induction evs as [|ev evs IH]; intros rt Ht Hs; [done|].
  rewrite run_cons. apply IH.
  - destruct ev as [errors fs|t|p failure].
    + destruct (step_BuildEnd_cases watching watchCommand errors fs rt)
        as [->|[->|[->|[(_ & _ & ->)|(cmd & Hc & Hr & ->)]]]]; try done.
      * cbn. by rewrite timers_stopPrevious.
      * cbn. apply map_Forall_insert_2; [by eapply HQ|].
        intros t c Hl. apply timers_clearPending_lookup in Hl.
        rewrite timers_stopPrevious in Hl. by apply (Ht t).
    + cbn [step]. unfold timeout. destruct (timers rt !! t) eqn:E; [|done].
      cbn. by apply map_Forall_delete.
    + cbn [step]. unfold exited. case_bool_decide; [|done]. by destruct failure.
  - destruct ev as [errors fs|t|p failure].
    + by rewrite spawned_step_BuildEnd.
    + cbn [step]. unfold timeout. destruct (timers rt !! t) as [cmd|] eqn:E; [|done].
      cbn. rewrite <- app_assoc, spawned_app. cbn.
      apply Forall_app. split; [done|]. apply Forall_singleton. by apply (Ht t).
    + cbn [step]. unfold exited. case_bool_decide; [|done].
      destruct failure; cbn; [|done]. rewrite spawned_app. cbn.
      by rewrite app_nil_r.
Qed.

Ltac forall_trace :=
  repeat (apply Forall_app; split);
  repeat match goal with
         | |- Forall _ (match ?x with _ => _ end) => destruct x
         end;
  try done; repeat constructor.

(** When the command always resolves, the hook never throws. *)
Lemma never_throws watching watchCommand :
  (forall fs, watchCommand <> Some "" -> resolveCommand watchCommand fs <> None) ->
  forall evs rt,
    Forall (fun e => isPluginError e = false) (trace rt) ->
    Forall (fun e => isPluginError e = false) (trace (run watching watchCommand evs rt)).
Proof.
  intros HR evs. induction evs as [|ev evs IH]; intros rt Ht; [done|].
  rewrite run_cons. apply IH.
  destruct ev as [errors fs|t|p failure].
  - destruct (step_BuildEnd_cases watching watchCommand errors fs rt)
      as [->|[->|[->|[(Hc & Hr & _)|(cmd & Hc & Hr & ->)]]]]; try done.
    + cbn. forall_trace.
    + by destruct (HR fs Hc).
    + cbn. rewrite trace_clearPending, trace_stopPrevious. forall_trace.
  - cbn [step]. unfold timeout. destruct (timers rt !! t) as [cmd|]; [|done].
    cbn. forall_trace.
  - cbn [step]. unfold exited. case_bool_decide; [|done].
    destruct failure; cbn; [|done]. forall_trace.
Qed.

(** X2. With a command configured (not the empty string), every subprocess
    the session starts runs exactly that command, whatever lock files come
    and go, and the hook never throws. *)
Theorem configured_command_always_used (watching : bool) (cmd : string)
    (evs : list Event) :
  cmd <> "" ->
  let rt := run watching (Some cmd) evs init in
  Forall (fun c => c = cmd) (spawned (trace rt)) /\
  Forall (fun e => isPluginError e = false) (trace rt).
Proof.
  intros Hne rt.
  assert (forall fs, resolveCommand (Some cmd) fs = Some cmd) as Hr.
  { intros fs. cbn. by rewrite (proj2 (String.eqb_neq cmd "") Hne). }
  split.
  - apply (spawned_resolved watching (Some cmd) (fun c => c = cmd)); [|done..].
    intros fs c _. rewrite Hr. congruence.
  - apply never_throws; [|done]. intros fs _. by rewrite Hr.
Qed.

Lemma configured_command_always_used_witness :
  let rt := run true (Some "node .")
              [BuildEnd [] noLockFile; BuildEnd [] (onlyFile "yarn.lock");
               TimeoutDue 0; BuildEnd [] noLockFile; TimeoutDue 2] init in
  Forall (fun c => c = "node .") (spawned (trace rt)) /\
  Forall (fun e => isPluginError e = false) (trace rt).
Proof.
  apply (configured_command_always_used true "node ."). done.
Defined.

(** X3. With no command configured, every subprocess the session starts
    runs one of the four package-manager start commands. *)
Theorem default_command_is_a_start_script (watching : bool) (evs : list Event) :
  Forall (fun c => c ∈ startScripts)
    (spawned (trace (run watching None evs init))).
Proof.
  apply (spawned_resolved watching None (fun c => c ∈ startScripts)); [|done..].
  intros fs c _. cbn. unfold defaultCommand, startScripts.
  repeat (destruct (fs _); [intros [= <-]; set_solver|]). done.
Qed.

(** X4. A rebuild whose command cannot be resolved leaves the timeout of
    the previous rebuild in place: with no command configured, if a lock
    file was found at one successful rebuild and none at the next, the
    command found first stays scheduled and is started when its timeout
    comes due. *)
Theorem unresolved_rebuild_keeps_pending_timeout (evs : list Event)
    (fs1 fs2 : string -> bool) (cmd : string) :
  let rt0 := run true None evs init in
  let rt1 := step true None rt0 (BuildEnd [] fs1) in
  let rt2 := step true None rt1 (BuildEnd [] fs2) in
  isFirstBuild (session rt0) = false ->
  defaultCommand fs1 = Some cmd ->
  defaultCommand fs2 = None ->
  timers rt2 = {[ fresh rt0 := cmd ]} /\
  last (trace rt2) =
    Some (PluginError "[watch] default package manager start command not found") /\
  spawned (trace (timeout (fresh rt0) rt2)) = spawned (trace rt0) ++ [cmd].
Proof.
  intros rt0 rt1 rt2 Hf H1 H2.
  assert (inv rt0) as I0 by apply inv_run, inv_init.
  assert (isFirstBuild (session rt1) = false) as Hf1 by by apply isFirstBuild_step.
  destruct (step_schedules None fs1 cmd rt0 I0 Hf) as [Ht1 _]; [done..|].
  fold rt1 in Ht1.
  assert (rt2 = emit (PluginError "[watch] default package manager start command not found")
                  (stopPrevious rt1)) as E2.
  { unfold rt2. cbn [step]. rewrite onEnd_unfold by done.
    cbn [resolveCommand]. by rewrite H2. }
  assert (timers rt2 = {[ fresh rt0 := cmd ]}) as Ht2.
  { rewrite E2. cbn. by rewrite timers_stopPrevious. }
  split; [done|]. split.
  - rewrite E2. cbn. by rewrite last_snoc.
  - rewrite <- (spawned_step_BuildEnd true None [] fs1 rt0). fold rt1.
    rewrite <- (spawned_step_BuildEnd true None [] fs2 rt1). fold rt2.
    apply (run_timeouts_one true None [fresh rt0] _ _ _ Ht2). set_solver.
Qed.

Lemma unresolved_rebuild_keeps_pending_timeout_witness :
  let rt0 := run true None [BuildEnd [] noLockFile] init in
  let rt1 := step true None rt0 (BuildEnd [] (onlyFile "pnpm-lock.yaml")) in
  let rt2 := step true None rt1 (BuildEnd [] noLockFile) in
  timers rt2 = {[ fresh rt0 := "pnpm start" ]} /\
  last (trace rt2) =
    Some (PluginError "[watch] default package manager start command not found") /\
  spawned (trace (timeout (fresh rt0) rt2)) = spawned (trace rt0) ++ ["pnpm start"].
Proof.
  apply (unresolved_rebuild_keeps_pending_timeout [BuildEnd [] noLockFile]
           (onlyFile "pnpm-lock.yaml") noLockFile "pnpm start"); reflexivity.
Defined.

(** Starts never outnumber the timeouts scheduled before them. *)
Lemma debounce_count_step watching watchCommand rt ev :
  inv rt ->
  length (spawned (trace rt)) + size (timers rt) <= length (scheduled (trace rt)) ->
  let rt' := step watching watchCommand rt ev in
  length (spawned (trace rt')) + size (timers rt') <= length (scheduled (trace rt')).
Proof.
  intros I H rt'. unfold rt'. destruct ev as [errors fs|t|p failure].
  - rewrite spawned_step_BuildEnd.
    destruct (step_BuildEnd_cases watching watchCommand errors fs rt)
      as [->|[->|[->|[(_ & _ & ->)|(cmd & Hc & Hr & ->)]]]]; try done.
    + cbn. rewrite scheduled_app. cbn. by rewrite app_nil_r.
    + cbn. rewrite scheduled_app, scheduled_stopPrevious, timers_stopPrevious.
      cbn. by rewrite app_nil_r.
    + destruct (stopPrevious_spec rt I) as (I1 & _).
      destruct (clearPending_spec _ I1) as (Ht & _).
      cbn. rewrite Ht, insert_empty, map_size_singleton.
      rewrite !scheduled_app, scheduled_clearPending, scheduled_stopPrevious. cbn.
      rewrite !length_app. cbn. lia.
  - cbn [step]. unfold timeout. destruct (timers rt !! t) as [cmd|] eqn:E; [|done].
    cbn. rewrite <- app_assoc, spawned_app, scheduled_app. cbn.
    rewrite length_app, app_nil_r. cbn.
    rewrite map_size_delete, E. cbn.
    assert (size (timers rt) <> 0).
    { apply map_size_non_empty_iff. intros He. by rewrite He in E. }
    lia.
  - cbn [step]. unfold exited. case_bool_decide; [|done].
    destruct failure; cbn; [|done].
    rewrite spawned_app, scheduled_app. cbn. by rewrite !app_nil_r.
Qed.

(** X5. The supervisor never starts a subprocess directly: each start is the
    firing of a timeout the hook scheduled, so at any moment the starts
    together with the timeouts still pending do not outnumber the timeouts
    scheduled. *)
Theorem every_start_was_debounced (watching : bool)
    (watchCommand : option string) (evs : list Event) :
  let rt := run watching watchCommand evs init in
  length (spawned (trace rt)) + size (timers rt) <= length (scheduled (trace rt)).
Proof.
  intros rt. unfold rt.
  assert (inv init /\
          length (spawned (trace init)) + size (timers init)
            <= length (scheduled (trace init))) as H.
  { split; [apply inv_init|]. cbn. rewrite map_size_empty. lia. }
  revert H. generalize init. induction evs as [|ev evs IH]; intros rt0 [I H]; [done|].
  rewrite run_cons. apply IH. split; [by apply inv_step|].
  by apply debounce_count_step.
Qed.

Lemma cancelInv_init : cancelInv init.
Proof. split; cbn; try done; try (intros p Hp; by apply elem_of_nil in Hp). constructor. Qed.

Lemma cancelInv_step watching watchCommand rt ev :
  cancelInv rt -> cancelInv (step watching watchCommand rt ev).
Proof.
  intros [Hnd Hst Hcur Hfr Hkn]. destruct ev as [errors fs|t|p failure].
  - assert (cancelInv (stopPrevious rt)) as [Hnd' Hst' Hcur' Hfr' Hkn'].
    { split.
      - rewrite cancelled_stopPrevious.
        destruct (currentProcess (session rt)) as [p|] eqn:Hp;
          [|by rewrite app_nil_r].
        apply NoDup_app. split; [done|]. split; [|apply NoDup_singleton].
        intros q Hq Hq'%list_elem_of_singleton. subst q. by apply (Hcur p).
      - intros q. rewrite cancelled_stopPrevious, started_stopPrevious.
        intros [Hq|Hq]%elem_of_app; [by apply Hst|].
        destruct (currentProcess (session rt)) as [p|] eqn:Hp;
          [|by apply elem_of_nil in Hq].
        apply list_elem_of_singleton in Hq as ->. by apply Hkn.
      - intros q _. by rewrite currentProcess_stopPrevious.
      - intros q. rewrite started_stopPrevious, fresh_stopPrevious. apply Hfr.
      - intros q. by rewrite currentProcess_stopPrevious. }
    destruct (step_BuildEnd_cases watching watchCommand errors fs rt)
      as [->|[->|[->|[(_ & _ & ->)|(cmd & Hc & Hr & ->)]]]]; try done.
    + split; cbn; rewrite ?cancelled_app, ?started_app; cbn;
        rewrite ?app_nil_r; done.
    + split; cbn; rewrite ?cancelled_app, ?started_app; cbn;
        rewrite ?app_nil_r; done.
    + split; cbn; rewrite ?cancelled_app, ?started_app,
        ?cancelled_clearPending, ?started_clearPending, ?session_clearPending,
        ?fresh_clearPending; cbn; rewrite ?app_nil_r; try done.
      intros q Hq. apply Hfr' in Hq. lia.
  - cbn [step]. unfold timeout. destruct (timers rt !! t) as [cmd|]; [|by split].
    split; cbn; rewrite <- ?app_assoc, ?cancelled_app, ?started_app; cbn;
      rewrite ?app_nil_r.
    + done.
    + intros q Hq. apply elem_of_app. left. by apply Hst.
    + intros q Hq [= E]. apply Hst, Hfr in Hq. lia.
    + intros q [Hq|Hq%list_elem_of_singleton]%elem_of_app; [apply Hfr in Hq|]; lia.
    + intros q [= <-]. apply elem_of_app. right. by apply list_elem_of_singleton.
  - cbn [step]. unfold exited. case_bool_decide; [|by split].
    destruct failure; split; cbn; rewrite ?cancelled_app, ?started_app; cbn;
      rewrite ?app_nil_r; done.
Qed.

Lemma cancelInv_run watching watchCommand evs rt :
  cancelInv rt -> cancelInv (run watching watchCommand evs rt).
Proof.
  revert rt. induction evs as [|ev evs IH]; intros rt H; [done|].
  rewrite run_cons. by apply IH, cancelInv_step.
Qed.

(** X6. The supervisor cancels a subprocess at most once, and only a
    subprocess it has started. *)
Theorem cancels_once_what_it_started (watching : bool)
    (watchCommand : option string) (evs : list Event) :
  let tr := trace (run watching watchCommand evs init) in
  NoDup (cancelled tr) /\ forall p, p ∈ cancelled tr -> p ∈ started tr.
Proof.
  intros tr.
  destruct (cancelInv_run watching watchCommand evs init cancelInv_init)
    as [Hnd Hst _ _ _].
  by split.
Qed.

(** X7. A subprocess the supervisor has cancelled ends silently: when it
    exits afterwards, with whatever error, nothing is logged and the session
    does not change. *)
Theorem cancelled_exit_is_silent (watching : bool) (watchCommand : option string)
    (evs : list Event) (p : nat) (failure : option string) :
  let rt := run watching watchCommand evs init in
  p ∈ cancelled (trace rt) ->
  step watching watchCommand rt (ProcessExit p failure) = rt.
Proof.
  intros rt Hp. cbn [step]. unfold exited.
  rewrite bool_decide_eq_false_2; [done|].
  intros Hal.
  assert (inv rt) as I by apply inv_run, inv_init.
  destruct (cancelInv_run watching watchCommand evs init cancelInv_init)
    as [_ _ Hcur _ _].
  apply (Hcur p Hp). by apply (inv_alive _ I).
Qed.

Lemma cancelled_exit_is_silent_witness :
  let rt := run true (Some "node .")
              [BuildEnd [] noLockFile; BuildEnd [] noLockFile; TimeoutDue 0;
               BuildEnd [] noLockFile] init in
  step true (Some "node .") rt (ProcessExit 1 (Some "Command was killed with SIGTERM"))
    = rt.
Proof.
  apply (cancelled_exit_is_silent true (Some "node .")
           [BuildEnd [] noLockFile; BuildEnd [] noLockFile; TimeoutDue 0;
            BuildEnd [] noLockFile] 1).
  vm_compute. set_solver.
Defined.

End SupervisorExtras.

(** ** More on the build command *)

Module BuildExtras.
Import Build Preprocessor Accounting.

(** Closes an equation between closed terms by evaluating both sides. *)
Ltac by_vm :=
  match goal with
  | |- ?G => match G with ?x = _ => exact (eq_refl x <: G) end
  end.

(** X8. [--watch-command] without [--watch] is a usage error: [build] throws
    before it reads any configuration, having printed at most the
    experimental notice. *)
Theorem watch_command_requires_watch (w : World) (options : Options) (cmd : string) :
  watch options = false ->
  watchCommand options = Some cmd ->
  cmd <> "" ->
  build w options =
    (if supressWarnings options then [] else banner,
     inl (InvalidArgumentError "enable watch to use --watch-command")).
Proof.
  intros Hw Hc Hne. unfold build, loadConfig. rewrite Hw, Hc.
  cbn [negb andb ofString truthy].
  rewrite (proj2 (String.eqb_neq cmd "") Hne).
  by destruct (supressWarnings options).
Qed.

Lemma watch_command_requires_watch_witness :
  build (tsProject None)
    (mkOptions true false (Some "node .") None None None None None None) =
    ([], inl (InvalidArgumentError "enable watch to use --watch-command")).
Proof.
  apply (watch_command_requires_watch (tsProject None)
           (mkOptions true false (Some "node .") None None None None None None)
           "node ."); done.
Defined.

(** X9. A configuration file that exists but cannot be loaded is fatal:
    [build] reports it, passes the error on, and has by then written
    nothing and not reached the engine. *)
Theorem unloadable_config_file_is_fatal (w : World) (options : Options)
    (sernConfig : object) (e : Exn) :
  negb (watch options) && truthy (ofString (watchCommand options)) = false ->
  getConfig w = inr sernConfig ->
  pathExists w (resolve w [default "sern.build.js" (project options)]) = true ->
  importDefault w (resolve w [default "sern.build.js" (project options)]) = inl e ->
  (build w options).2 = inl e /\
  last (build w options).1 =
    Some (Console Error [VStr "Could not find buildConfigPath"]) /\
  Forall (fun e => writesOrBuilds e = false) (build w options).1.
Proof.
  intros Hu Hg Hp Hi. unfold build, loadConfig. rewrite Hu, Hg, Hp, Hi.
  destruct (supressWarnings options); cbn; repeat split; repeat constructor.
Qed.

Lemma unloadable_config_file_is_fatal_witness :
  let w := mkWorld (String.concat "/") (String.eqb "sern.build.js")
             (inr ∅) (fun _ => inl (Thrown "SyntaxError: Unexpected token"))
             ∅ (fun _ => ∅) (fun _ => inr VUndefined) (fun _ => [])
             (fun _ _ => ∅) (inr "1") (fun _ => "string") (fun _ => "{}") [] in
  (build w formatCjs).2 = inl (Thrown "SyntaxError: Unexpected token") /\
  last (build w formatCjs).1 =
    Some (Console Error [VStr "Could not find buildConfigPath"]) /\
  Forall (fun e => writesOrBuilds e = false) (build w formatCjs).1.
Proof.
  intros w.
  apply (unloadable_config_file_is_fatal w formatCjs ∅
           (Thrown "SyntaxError: Unexpected token")); reflexivity.
Defined.

(** X10. A project configuration ([tsconfig.json] or [jsconfig.json]) that
    cannot be parsed is fatal: [build] prints three lines, the second naming
    the file expected for the project's language, passes the error on, and
    has by then written nothing and not reached the engine. *)
Theorem unparsable_project_config_is_fatal (w : World) (options : Options)
    (tr : list Effect) (sernConfig buildConfig : object) (e : Exn) :
  loadConfig w options = (tr, inr (sernConfig, buildConfig)) ->
  is_str (get buildConfig "mode") "development"
    || is_str (get buildConfig "mode") "production" = true ->
  parseTsConfig w (get buildConfig "tsconfig") = inl e ->
  build w options =
    (tr ++ [ParseTsConfig (get buildConfig "tsconfig");
            Console Error [VStr "no tsconfig / jsconfig found"];
            Console Error [VStr ("Please create a " +:+
              (if is_str (get sernConfig "language") "javascript"
               then "jsconfig.json" else "tsconfig.json"))];
            Console Error [VStr extendHint]],
     inl e) /\
  Forall (fun e => writesOrBuilds e = false) (build w options).1.
Proof.
  intros H Hm Hp.
  assert (build w options =
    (tr ++ [ParseTsConfig (get buildConfig "tsconfig");
            Console Error [VStr "no tsconfig / jsconfig found"];
            Console Error [VStr ("Please create a " +:+
              (if is_str (get sernConfig "language") "javascript"
               then "jsconfig.json" else "tsconfig.json"))];
            Console Error [VStr extendHint]],
     inl e)) as E.
  { unfold build. rewrite H. cbn [bind]. rewrite Hm, Hp. reflexivity. }
  split; [done|]. rewrite E. cbn [fst].
  apply loadConfig_inv in H as (_ & _ & Htr).
  apply Forall_app. split; [done|]. repeat constructor.
Qed.

Lemma unparsable_project_config_is_fatal_witness :
  let w := mkWorld (String.concat "/") (fun _ => false)
             (inr {[ "language" := VStr "javascript" ]}) (fun _ => inr VUndefined)
             ∅ (fun _ => ∅) (fun _ => inl (Thrown "ENOENT")) (fun _ => [])
             (fun _ _ => ∅) (inr "1") (fun _ => "string") (fun _ => "{}") [] in
  let sernConfig : object := {[ "language" := VStr "javascript" ]} in
  let buildConfig := defaultBuildConfig formatCjs sernConfig in
  build w formatCjs =
    ((loadConfig w formatCjs).1 ++
       [ParseTsConfig (get buildConfig "tsconfig");
        Console Error [VStr "no tsconfig / jsconfig found"];
        Console Error [VStr ("Please create a " +:+
          (if is_str (get sernConfig "language") "javascript"
           then "jsconfig.json" else "tsconfig.json"))];
        Console Error [VStr extendHint]],
     inl (Thrown "ENOENT")) /\
  Forall (fun e => writesOrBuilds e = false) (build w formatCjs).1.
Proof.
  intros w sernConfig buildConfig.
  apply (unparsable_project_config_is_fatal w formatCjs
           (loadConfig w formatCjs).1 sernConfig buildConfig (Thrown "ENOENT"));
    by_vm.
Defined.

(** X11. A [NODE_ENV] of the process that is set to anything but
    [development] or [production] (and is not empty) makes [build] fail on
    its assertion, whatever mode the command line and the configuration file
    ask for. *)
Theorem unknown_NODE_ENV_fails_build (w : World) (options : Options)
    (tr : list Effect) (sernConfig buildConfig : object) (e : string) :
  loadConfig w options = (tr, inr (sernConfig, buildConfig)) ->
  processEnv w !! "NODE_ENV" = Some e ->
  e <> "" -> e <> "development" -> e <> "production" ->
  build w options =
    (tr, inl (AssertionError "NODE_ENV is not `production` or `development`")).
Proof.
  intros H He Hne Hd Hp.
  pose proof H as (_ & Hbc & _)%loadConfig_inv. cbn zeta in Hbc.
  unfold nodeEnv in Hbc.
  rewrite (lookup_union_Some_l _ _ _ _ He) in Hbc.
  rewrite (proj2 (String.eqb_neq e "") Hne) in Hbc.
  assert (get buildConfig "mode" = VStr e) as Hm.
  { rewrite Hbc. unfold get. by rewrite lookup_insert_eq. }
  unfold build. rewrite H. cbn [bind]. rewrite Hm. cbn [is_str].
  rewrite (proj2 (String.eqb_neq e "development") Hd).
  rewrite (proj2 (String.eqb_neq e "production") Hp).
  cbn [orb throw bind]. by rewrite app_nil_r.
Qed.

Lemma unknown_NODE_ENV_fails_build_witness :
  let w := tsProject (Some "test") in
  let options := mkOptions false false None None None (Some "production")
                   None None None in
  build w options =
    ((loadConfig w options).1,
     inl (AssertionError "NODE_ENV is not `production` or `development`")).
Proof.
  intros w options.
  apply (unknown_NODE_ENV_fails_build w options (loadConfig w options).1
           {[ "language" := VStr "typescript" ]}
           (<[ "mode" := VStr "test" ]>
              (merge (defaultBuildConfig options {[ "language" := VStr "typescript" ]})
                     {[ "format" := VStr "esm" ]}))
           "test");
    [by_vm | by_vm | done..].
Defined.

Lemma endsWith_app (p suffix : string) : endsWith (p +:+ suffix) suffix = true.
Proof.
  unfold endsWith.
  assert (forall a b, String.length (a +:+ b) = String.length a + String.length b) as Hl.
  { induction a as [|c a IH]; intros b; simpl; [done|]. f_equal. apply IH. }
  assert (forall s, String.substring 0 (String.length s) s = s) as H0.
  { induction s as [|c s IH]; simpl; [done|]. f_equal. apply IH. }
  assert (forall a b, String.substring (String.length a) (String.length b) (a +:+ b) = b)
    as Hs.
  { induction a as [|c a IH]; intros b; simpl; [apply H0|apply IH]. }
  rewrite Hl. apply andb_true_iff. split.
  - apply Nat.leb_le. lia.
  - replace (String.length p + String.length suffix - String.length suffix)
      with (String.length p) by lia.
    rewrite Hs. apply String.eqb_refl.
Qed.

Lemma CommandHandlerPlugin_inv w buildConfig ambientFilePath sernTsConfigPath
    initialOptions tr opts :
  CommandHandlerPlugin w buildConfig ambientFilePath sernTsConfigPath initialOptions
    = (tr, inr opts) ->
  exists version,
    opts = <[ "define" := VObj
               (<[ "__VERSION__" := VStr version ]>
                  (<[ "__PROD__" := VStr (bool_str (is_str (get buildConfig "mode") "production")) ]>
                     (<[ "__DEV__" := VStr (bool_str (is_str (get buildConfig "mode") "development")) ]>
                        (spread (nullish (get buildConfig "define") (VObj ∅)))))) ]>
             initialOptions /\
    Forall (fun e => isEngineCall e = false) tr.
Proof.
  unfold CommandHandlerPlugin.
  destruct (truthy (get buildConfig "defineVersion"));
    [destruct (defVersion w) as [e|v]|];
    cbn [bind tell ret lift app]; intros [= <- <-]; eexists;
    (split; [reflexivity|repeat constructor]).
Qed.

Lemma build_inv w options tr st :
  build w options = (tr, inr st) ->
  exists tr0 sernConfig buildConfig labels before writes,
    loadConfig w options = (tr0, inr (sernConfig, buildConfig)) /\
    is_str (get buildConfig "mode") "development"
      || is_str (get buildConfig "mode") "production" = true /\
    iterate (get buildConfig "dropLabels") = inr labels /\
    CommandHandlerPlugin w buildConfig
      (resolve w [resolve w [".sern"]; "ambient.d.ts"])
      (resolve w [resolve w [".sern"]; "tsconfig.json"])
      (BuildView.contextOptions w buildConfig labels) = (writes, inr (engineOptions st)) /\
    Forall (fun e => isEngineCall e = false) before /\
    tr = tr0 ++ before ++
         [EsbuildContext (BuildView.contextOptions w buildConfig labels)] ++
         writes ++ [Rebuild; if watch options then Watch else Dispose].
Proof.
  unfold build.
  destruct (loadConfig w options) as [tr0 [e|[sc bc]]] eqn:Hl; cbn [bind];
    [intros [=]|].
  destruct (is_str (get bc "mode") "development"
            || is_str (get bc "mode") "production") eqn:Hm;
    cbn [bind tell ret throw lift rethrowing app]; [|intros [=]].
  destruct (parseTsConfig w (get bc "tsconfig")) as [e|config];
    cbn [bind tell ret throw lift rethrowing app]; [intros [=]|].
  destruct (truthy (prop config "extends")) eqn:Hx;
    cbn [bind tell ret throw lift rethrowing app].
  all: destruct (negb (pathExists w (resolve w [resolve w [".sern"]; "generated"])))
         eqn:Hg;
    cbn [bind tell ret throw lift rethrowing app].
  all: destruct (iterate (get bc "dropLabels")) as [e|labels] eqn:Hi;
    cbn [bind tell ret throw lift rethrowing app]; [intros [=]|].
  all: fold (BuildView.entryPoints w); fold (BuildView.contextOptions w bc labels).
  all: destruct (CommandHandlerPlugin w bc
                   (resolve w [resolve w [".sern"]; "ambient.d.ts"])
                   (resolve w [resolve w [".sern"]; "tsconfig.json"])
                   (BuildView.contextOptions w bc labels))
         as [writes [e|opts]] eqn:Hp;
    cbn [bind tell ret throw lift rethrowing app]; [intros [=]|].
  all: destruct (firstBuild w);
    cbn [bind tell ret throw lift rethrowing app]; [|intros [=]].
  all: rewrite ?app_nil_r, <- ?app_assoc; cbn [app].
  all: intros [= <- <-].
  all: match goal with
       | |- context [?t ++ ?l] =>
           match l with
           | context C [EsbuildContext ?o :: ?rest] =>
               let b := context C [@nil Effect] in
               exists t, sc, bc, labels, b, writes
           end
       end.
  all: (split; [done|split; [done|split; [done|split; [done|]]]]).
  all: split; [repeat constructor|reflexivity].
Qed.

Lemma is_str_eq (v : value) (s : string) : is_str v s = true -> v = VStr s.
Proof.
  destruct v as [| | |s'| |]; cbn; try done.
  by intros ->%String.eqb_eq.
Qed.

(** X12. When [build] gets as far as the engine, the resolved mode decides
    both the two mode flags it defines and the label it has the engine drop
    first: in development [__DEV__] is [true], [__PROD__] is [false] and
    [__PROD__] blocks are dropped; in production it is the other way round.
    The labels of the resolved configuration follow that first label, in
    their order (the elements of the array, or the characters of a string,
    as [...] spreads them). *)
Theorem dropped_label_is_the_inactive_mode (w : World) (options : Options)
    (tr tr0 : list Effect) (st : Started) (sernConfig buildConfig : object) :
  build w options = (tr, inr st) ->
  loadConfig w options = (tr0, inr (sernConfig, buildConfig)) ->
  exists (define : object) (labels : list value),
    (get buildConfig "dropLabels" = VArr labels \/
     exists s, get buildConfig "dropLabels" = VStr s /\ labels = chars s) /\
    engineOptions st !! "define" = Some (VObj define) /\
    ((get buildConfig "mode" = VStr "development" /\
      define !! "__DEV__" = Some (VStr "true") /\
      define !! "__PROD__" = Some (VStr "false") /\
      engineOptions st !! "dropLabels" = Some (VArr (VStr "__PROD__" :: labels))) \/
     (get buildConfig "mode" = VStr "production" /\
      define !! "__DEV__" = Some (VStr "false") /\
      define !! "__PROD__" = Some (VStr "true") /\
      engineOptions st !! "dropLabels" = Some (VArr (VStr "__DEV__" :: labels)))).
Proof.
  intros (tr0' & sc & bc & labels & before & writes & Hl & Hm & Hi & Hp & _)%build_inv
         Hl'.
  rewrite Hl' in Hl. injection Hl as <- <- <-.
  apply CommandHandlerPlugin_inv in Hp as (version & -> & _).
  eexists _, labels. split; [|split; [apply lookup_insert_eq|]].
  { destruct (get buildConfig "dropLabels") as [| | |s|l|]; cbn in Hi; try done.
    - right. exists s. split; [done|]. congruence.
    - left. congruence. }
  rewrite lookup_insert_ne, lookup_insert_ne, lookup_insert_eq by done.
  rewrite lookup_insert_ne, lookup_insert_eq by done.
  rewrite lookup_insert_ne by done. unfold BuildView.contextOptions.
  rewrite lookup_insert_eq.
  destruct (is_str (get buildConfig "mode") "development") eqn:Hd.
  - left. rewrite (is_str_eq _ _ Hd). done.
  - right. cbn in Hm. rewrite (is_str_eq _ _ Hm). done.
Qed.

Lemma dropped_label_is_the_inactive_mode_witness :
  let w := tsProject (Some "production") in
  let buildConfig : object :=
    <[ "mode" := VStr "production" ]>
      (merge (defaultBuildConfig formatCjs {[ "language" := VStr "typescript" ]})
             {[ "format" := VStr "esm" ]}) in
  match (build w formatCjs).2 with
  | inr st =>
      exists (define : object) (labels : list value),
        (get buildConfig "dropLabels" = VArr labels \/
         exists s, get buildConfig "dropLabels" = VStr s /\ labels = chars s) /\
        engineOptions st !! "define" = Some (VObj define) /\
        ((get buildConfig "mode" = VStr "development" /\
          define !! "__DEV__" = Some (VStr "true") /\
          define !! "__PROD__" = Some (VStr "false") /\
          engineOptions st !! "dropLabels" =
            Some (VArr (VStr "__PROD__" :: labels))) \/
         (get buildConfig "mode" = VStr "production" /\
          define !! "__DEV__" = Some (VStr "false") /\
          define !! "__PROD__" = Some (VStr "true") /\
          engineOptions st !! "dropLabels" =
            Some (VArr (VStr "__DEV__" :: labels))))
  | inl _ => False
  end.
Proof.
  intros w buildConfig.
  assert (if (build w formatCjs).2 is inr _ then True else False) as Hok
    by (vm_compute; exact I).
  destruct (build w formatCjs) as [tr [e|st]] eqn:E; cbn [snd] in *; [done|].
  apply (dropped_label_is_the_inactive_mode w formatCjs tr (loadConfig w formatCjs).1
           st {[ "language" := VStr "typescript" ]} buildConfig E).
  by_vm.
Defined.

(** X13. The entry points handed to the engine are the files the glob
    matched, in the same order, without those whose name ends in [.d.ts]
    (as long as the shared engine defaults do not set entry points of their
    own, which would replace them). *)
Theorem entry_points_leave_out_declarations (w : World) (options : Options)
    (tr : list Effect) (st : Started) :
  build w options = (tr, inr st) ->
  (forall format tsconfig, defaultEsbuild w format tsconfig !! "entryPoints" = None) ->
  engineOptions st !! "entryPoints" = Some (VArr (VStr <$> BuildView.entryPoints w)) /\
  Forall (fun f => f ∈ glob w "src/**/*{.ts,.js}" /\ forall p, f <> p +:+ ".d.ts")
    (BuildView.entryPoints w).
Proof.
  intros (tr0 & sc & bc & labels & before & writes & _ & _ & _ & Hp & _)%build_inv Hd.
  apply CommandHandlerPlugin_inv in Hp as (version & -> & _). split.
  - rewrite lookup_insert_ne by done. unfold BuildView.contextOptions.
    rewrite lookup_insert_ne by done. rewrite lookup_merge, Hd.
    apply lookup_insert_eq.
  - apply Forall_forall. intros f [Hf Hin]%list_elem_of_filter.
    split; [done|]. intros p ->. by rewrite endsWith_app in Hf.
Qed.

Lemma entry_points_leave_out_declarations_witness :
  match (build (tsProject (Some "production")) formatCjs).2 with
  | inr st =>
      engineOptions st !! "entryPoints" =
        Some (VArr (VStr <$> BuildView.entryPoints (tsProject (Some "production")))) /\
      Forall (fun f => f ∈ glob (tsProject (Some "production")) "src/**/*{.ts,.js}" /\
                       forall p, f <> p +:+ ".d.ts")
        (BuildView.entryPoints (tsProject (Some "production")))
  | inl _ => False
  end.
Proof.
  assert (if (build (tsProject (Some "production")) formatCjs).2 is inr _
          then True else False) as Hok by (vm_compute; exact I).
  destruct (build (tsProject (Some "production")) formatCjs) as [tr [e|st]] eqn:E;
    cbn [snd] in *; [done|].
  exact (entry_points_leave_out_declarations _ _ tr st E (fun _ _ => eq_refl)).
Defined.

Lemma engineCalls_app tr tr' : engineCalls (tr ++ tr') = engineCalls tr ++ engineCalls tr'.
Proof. apply omap_app. Qed.

Lemma engineCalls_none tr :
  Forall (fun e => isEngineCall e = false) tr -> engineCalls tr = [].
Proof.
  induction 1 as [|e tr He _ IH]; [done|].
  unfold engineCalls in *. cbn. by rewrite He.
Qed.

(** X14. A [build] that returns has opened one bundling context, built
    once, and then either kept watching (with [--watch]) or disposed of the
    context (without), never both. *)
Theorem builds_once_then_watches_or_disposes (w : World) (options : Options)
    (tr : list Effect) (st : Started) :
  build w options = (tr, inr st) ->
  exists opts,
    engineCalls tr =
      [EsbuildContext opts; Rebuild; if watch options then Watch else Dispose].
Proof.
  intros (tr0 & sc & bc & labels & before & writes & Hl & _ & _ & Hp & Hb & ->)%build_inv.
  apply CommandHandlerPlugin_inv in Hp as (_ & _ & Hw).
  apply loadConfig_inv in Hl as (_ & _ & H0).
  eexists. rewrite !engineCalls_app.
  rewrite (engineCalls_none before), (engineCalls_none writes) by done.
  rewrite (engineCalls_none tr0).
  - cbn. by destruct (watch options).
  - eapply Forall_impl; [exact H0|]. by intros [].
Qed.

Lemma builds_once_then_watches_or_disposes_witness :
  match build (tsProject (Some "production")) formatCjs with
  | (tr, inr st) =>
      exists opts, engineCalls tr = [EsbuildContext opts; Rebuild; Dispose]
  | (_, inl _) => False
  end.
Proof.
  assert (if (build (tsProject (Some "production")) formatCjs).2 is inr _
          then True else False) as Hok by (vm_compute; exact I).
  destruct (build (tsProject (Some "production")) formatCjs) as [tr [e|st]] eqn:E;
    cbn [snd] in *; [done|].
  exact (builds_once_then_watches_or_disposes _ _ tr st E).
Defined.

(** X15. The pre-build hook keeps every define of the user's configuration
    except the three it sets itself, and changes no other option of the
    engine. *)
Theorem hook_keeps_user_defines (w : World) (buildConfig : object)
    (ambientFilePath sernTsConfigPath : string) (initialOptions : object)
    (tr : list Effect) (opts : object) (k : string) :
  CommandHandlerPlugin w buildConfig ambientFilePath sernTsConfigPath initialOptions
    = (tr, inr opts) ->
  k ∉ BuildView.reserved ->
  (exists define,
     opts !! "define" = Some (VObj define) /\
     define !! k = spread (nullish (get buildConfig "define") (VObj ∅)) !! k) /\
  (k <> "define" -> opts !! k = initialOptions !! k).
Proof.
  intros (version & -> & _)%CommandHandlerPlugin_inv Hk.
  unfold BuildView.reserved in Hk.
  assert (k <> "__DEV__" /\ k <> "__PROD__" /\ k <> "__VERSION__") as (? & ? & ?).
  { repeat split; intros ->; apply Hk; set_solver. }
  split.
  - eexists. split; [apply lookup_insert_eq|].
    by rewrite !lookup_insert_ne.
  - intros Hd. by rewrite lookup_insert_ne.
Qed.

Lemma hook_keeps_user_defines_witness :
  match (CommandHandlerPlugin (tsProject None)
           {[ "mode" := VStr "development";
              "define" := VObj {[ "__DEV__" := VStr "0"; "API" := VStr "1" ]} ]}
           ".sern/ambient.d.ts" ".sern/tsconfig.json" ∅).2 with
  | inr opts =>
      (exists define,
         opts !! "define" = Some (VObj define) /\
         define !! "API" =
           spread (nullish
                     (get ({[ "mode" := VStr "development";
                              "define" := VObj {[ "__DEV__" := VStr "0";
                                                  "API" := VStr "1" ]} ]} : object)
                        "define")
                     (VObj ∅)) !! "API") /\
      ("API" <> "define" -> opts !! "API" = (∅ : object) !! "API")
  | inl _ => False
  end.
Proof.
  assert (if (CommandHandlerPlugin (tsProject None)
                {[ "mode" := VStr "development";
                   "define" := VObj {[ "__DEV__" := VStr "0"; "API" := VStr "1" ]} ]}
                ".sern/ambient.d.ts" ".sern/tsconfig.json" ∅).2
          is inr _ then True else False) as Hok by (vm_compute; exact I).
  destruct (CommandHandlerPlugin (tsProject None)
              {[ "mode" := VStr "development";
                 "define" := VObj {[ "__DEV__" := VStr "0"; "API" := VStr "1" ]} ]}
              ".sern/ambient.d.ts" ".sern/tsconfig.json" ∅)
    as [tr [e|opts]] eqn:E; cbn [snd] in *; [done|].
  apply (hook_keeps_user_defines _ _ _ _ _ tr opts "API" E).
  unfold BuildView.reserved. set_solver.
Defined.

(** X16. The pre-build hook issues exactly two writes, in this order: the
    project configuration for the configured format, to the generated
    tsconfig path, and then the ambient declarations, to the ambient path,
    for the very define map it hands to the engine (the three keys it adds
    included). *)
Theorem hook_writes_config_then_ambient (w : World) (buildConfig : object)
    (ambientFilePath sernTsConfigPath : string) (initialOptions : object)
    (tr : list Effect) (opts : object) :
  CommandHandlerPlugin w buildConfig ambientFilePath sernTsConfigPath initialOptions
    = (tr, inr opts) ->
  exists define,
    opts !! "define" = Some (VObj define) /\
    tr = [WriteFile sernTsConfigPath
            (Build.projectConfiguration w (get buildConfig "format"));
          WriteFile ambientFilePath (ambientDeclarations (Build.typeOf w) define)].
Proof.
  unfold CommandHandlerPlugin.
  destruct (truthy (get buildConfig "defineVersion"));
    [destruct (defVersion w) as [e|v]|];
    cbn [bind tell ret lift app]; intros [= <- <-].
  all: eexists; split; [apply lookup_insert_eq|reflexivity].
Qed.

Lemma hook_writes_config_then_ambient_witness :
  match CommandHandlerPlugin (tsProject None) {[ "format" := VStr "cjs" ]}
          ".sern/ambient.d.ts" ".sern/tsconfig.json" ∅ with
  | (tr, inr opts) =>
      exists define,
        opts !! "define" = Some (VObj define) /\
        tr = [WriteFile ".sern/tsconfig.json"
                (Build.projectConfiguration (tsProject None)
                   (get ({[ "format" := VStr "cjs" ]} : object) "format"));
              WriteFile ".sern/ambient.d.ts"
                (ambientDeclarations (Build.typeOf (tsProject None)) define)]
  | (_, inl _) => False
  end.
Proof.
  assert (if (CommandHandlerPlugin (tsProject None) {[ "format" := VStr "cjs" ]}
                ".sern/ambient.d.ts" ".sern/tsconfig.json" ∅).2
          is inr _ then True else False) as Hok by (vm_compute; exact I).
  destruct (CommandHandlerPlugin (tsProject None) {[ "format" := VStr "cjs" ]}
              ".sern/ambient.d.ts" ".sern/tsconfig.json" ∅)
    as [tr [e|opts]] eqn:E; cbn [snd] in *; [done|].
  exact (hook_writes_config_then_ambient _ _ _ _ _ tr opts E).
Defined.

End BuildExtras.

(** ** The plugins command *)

Module PluginsExtras.
Import Plugins.

Lemma append_nil_r (s : string) : s +:+ "" = s.
Proof.
  induction s as [|c s IH]; [done|].
  change (String c s +:+ "") with (String c (s +:+ "")). by rewrite IH.
Qed.

Lemma append_assoc (a b c : string) : (a +:+ b) +:+ c = a +:+ (b +:+ c).
Proof.
  induction a as [|x a IH]; [done|].
  change (String x ((a +:+ b) +:+ c) = String x (a +:+ (b +:+ c))). by rewrite IH.
Qed.

Lemma hasSlash_app (a b : string) : hasSlash (a +:+ b) = hasSlash a || hasSlash b.
Proof.
  induction a as [|x a IH]; [done|].
  change (Ascii.eqb x slash || hasSlash (a +:+ b) =
          Ascii.eqb x slash || hasSlash a || hasSlash b).
  by rewrite IH, orb_assoc.
Qed.

Lemma pop_spec (s acc : string) :
  hasSlash acc = false ->
  hasSlash (pop acc s) = false /\
  (acc +:+ s = pop acc s \/ exists p, acc +:+ s = p +:+ String slash (pop acc s)).
Proof.
  revert acc. induction s as [|c s IH]; intros acc Hacc; cbn [pop].
  { split; [done|]. left. apply append_nil_r. }
  destruct (Ascii.eqb c slash) eqn:Hc.
  - apply Ascii.eqb_eq in Hc as ->.
    destruct (IH "" eq_refl) as [Hs Hdec]. change ("" +:+ s) with s in Hdec.
    split; [done|]. right. destruct Hdec as [Heq|[p Heq]].
    + exists acc. by rewrite <- Heq.
    + exists (acc +:+ String slash p). rewrite append_assoc.
      change (String slash p +:+ String slash (pop "" s))
        with (String slash (p +:+ String slash (pop "" s))).
      by rewrite <- Heq.
  - destruct (IH (acc +:+ String c "")) as [Hs Hdec].
    { rewrite hasSlash_app, Hacc. cbn [hasSlash]. by rewrite Hc. }
    split; [done|].
    rewrite append_assoc in Hdec.
    change (String c "" +:+ s) with (String c s) in Hdec. exact Hdec.
Qed.

(** X17. A plugin is saved under the part of its URL after the last slash:
    that name holds no slash, and the URL is either the name alone or ends
    in a slash followed by the name (so a URL ending in a slash gives the
    empty name). *)
Theorem lastSegment_is_what_follows_the_last_slash (url : string) :
  hasSlash (lastSegment url) = false /\
  (url = lastSegment url \/ exists p, url = p +:+ "/" +:+ lastSegment url).
Proof.
  unfold lastSegment. apply (pop_spec url "" eq_refl).
Qed.

Lemma list_elem_of_made (log : list Action) (d : string) :
  d ∈ made log <-> MkdirSync d ∈ log.
Proof.
  unfold made. rewrite list_elem_of_omap. split.
  - intros (a & Ha & E). destruct a; try done. by injection E as ->.
  - intros H. by exists (MkdirSync d).
Qed.

Lemma fetched_app l l' : fetched (l ++ l') = fetched l ++ fetched l'.
Proof. apply omap_app. Qed.
Lemma written_app l l' : written (l ++ l') = written l ++ written l'.
Proof. apply omap_app. Qed.
Lemma made_app l l' : made (l ++ l') = made l ++ made l'.
Proof. apply omap_app. Qed.

(** What one download adds to the log. *)
Lemma download_spec (w : World) (url : string) (log : list Action) :
  download w url log =
    if usable w url then
      (log ++ [Fetch url] ++
         (if existsNow w (log ++ [Fetch url]) (fromCwd w "/src/plugins")
          then [] else [MkdirSync (fromCwd w "/src/plugins")]) ++
         [WriteFileSync (target w url).1 (target w url).2],
       Returned)
    else (log ++ [Fetch url], Raised downloadFailed).
Proof.
  unfold download, usable, target.
  destruct (fetch w url) as [data|]; [|done].
  destruct (String.eqb data ""); cbn [negb]; [done|].
  destruct (existsNow w (log ++ [Fetch url]) (fromCwd w "/src/plugins"));
    cbn [fst snd default]; by rewrite <- ?app_assoc.
Qed.

Lemma tidy_download w url log : tidy w log -> tidy w (download w url log).1.
Proof.
  intros H. rewrite download_spec. destruct (usable w url); cbn [fst].
  - unfold existsNow.
    destruct (existsSync w (fromCwd w "/src/plugins")) eqn:Hex; cbn [orb].
    + unfold tidy in *. rewrite !made_app. cbn. rewrite app_nil_r.
      destruct H as [H|[? _]]; [by left|congruence].
    + case_bool_decide as Hin.
      * unfold tidy in *. rewrite !made_app. cbn. by rewrite app_nil_r.
      * destruct H as [H|[_ H]].
        -- right. split; [done|]. rewrite !made_app, H. done.
        -- exfalso. apply Hin, elem_of_app. left.
           apply list_elem_of_made. rewrite H. set_solver.
  - unfold tidy in *. rewrite made_app. cbn. by rewrite app_nil_r.
Qed.

Lemma tidy_downloadAll w e log : tidy w log -> tidy w (downloadAll w e log).1.
Proof.
  revert log. induction e as [|url e IH]; intros log H; [done|].
  cbn [downloadAll]. pose proof (tidy_download w url log H) as H'.
  destruct (download w url log) as [log' [| |]]; cbn [fst] in *; by try apply IH.
Qed.

(** X18. Whatever is selected and however the downloads go, the command
    creates the plugins directory at most once, and only if it did not
    exist when the command started. *)
Theorem plugins_directory_made_at_most_once (w : World) :
  made (plugins w).1 = [] \/
  (existsSync w (fromCwd w "/src/plugins") = false /\
   made (plugins w).1 = [fromCwd w "/src/plugins"]).
Proof.
  unfold plugins. destruct (selection w) as [e|]; [|by left].
  pose proof (tidy_downloadAll w e [Prompt] (or_introl eq_refl)) as H.
  destruct (downloadAll w e [Prompt]) as [log [| |]]; cbn [fst] in *; try done.
  unfold tidy in H. rewrite made_app. cbn. by rewrite app_nil_r.
Qed.

Lemma downloadAll_usable w e log :
  Forall (fun url => usable w url = true) e ->
  (downloadAll w e log).2 = Returned /\
  fetched (downloadAll w e log).1 = fetched log ++ e /\
  written (downloadAll w e log).1 = written log ++ (target w <$> e).
Proof.
  intros H. revert log. induction H as [|url e Hu _ IH]; intros log.
  { cbn. by rewrite !app_nil_r. }
  cbn [downloadAll]. rewrite download_spec, Hu.
  destruct (IH (log ++ [Fetch url] ++
      (if existsNow w (log ++ [Fetch url]) (fromCwd w "/src/plugins")
       then [] else [MkdirSync (fromCwd w "/src/plugins")]) ++
      [WriteFileSync (target w url).1 (target w url).2])) as (-> & -> & ->).
  split; [done|].
  rewrite !fetched_app, !written_app.
  destruct (existsNow w (log ++ [Fetch url]) (fromCwd w "/src/plugins")); cbn;
    rewrite <- !app_assoc; cbn; (split; reflexivity).
Qed.

Lemma downloadAll_app w e1 e2 log :
  downloadAll w (e1 ++ e2) log =
    match downloadAll w e1 log with
    | (log', Returned) => downloadAll w e2 log'
    | failed => failed
    end.
Proof.
  revert log. induction e1 as [|url e1 IH]; intros log; [done|].
  cbn [app downloadAll]. destruct (download w url log) as [log' [| |]]; [apply IH|done..].
Qed.

(** X19. When every selected plugin can be fetched with a text to save, the
    command requests them in the order selected, writes each to its file
    under [src/plugins] in that order with the text fetched, prints the
    list of file names last, and returns. *)
Theorem plugins_saves_every_selection (w : World) (e : list string) :
  selection w = Some e ->
  Forall (fun url => usable w url = true) e ->
  (plugins w).2 = Returned /\
  fetched (plugins w).1 = e /\
  written (plugins w).1 = target w <$> e /\
  last (plugins w).1 =
    Some (ConsoleLog ("Successfully downloaded plugin(s):" +:+ Build.newline +:+
                      String.concat Build.newline (lastSegment <$> e))).
Proof.
  intros Hs Hu. unfold plugins. rewrite Hs.
  destruct (downloadAll_usable w e [Prompt] Hu) as (Ho & Hf & Hw).
  destruct (downloadAll w e [Prompt]) as [log out]; cbn [fst snd] in *. subst out.
  cbn [fst snd]. rewrite fetched_app, written_app, Hf, Hw, last_snoc. cbn.
  by rewrite !app_nil_r.
Qed.

Lemma plugins_saves_every_selection_witness :
  let w := registry (Some ["https://sern.dev/plugins/publish.ts";
                           "https://sern.dev/plugins/cooldown.ts"]) false in
  (plugins w).2 = Returned /\
  fetched (plugins w).1 = ["https://sern.dev/plugins/publish.ts";
                           "https://sern.dev/plugins/cooldown.ts"] /\
  written (plugins w).1 = target w <$> ["https://sern.dev/plugins/publish.ts";
                                        "https://sern.dev/plugins/cooldown.ts"] /\
  last (plugins w).1 =
    Some (ConsoleLog ("Successfully downloaded plugin(s):" +:+ Build.newline +:+
                      String.concat Build.newline
                        (lastSegment <$> ["https://sern.dev/plugins/publish.ts";
                                          "https://sern.dev/plugins/cooldown.ts"]))).
Proof.
  intros w.
  apply (plugins_saves_every_selection w
           ["https://sern.dev/plugins/publish.ts";
            "https://sern.dev/plugins/cooldown.ts"]); [reflexivity|].
  repeat constructor.
Defined.

(** X20. A download that fails, or answers with an empty text, stops the
    command with an error: the plugins selected before it have been written
    and stay, the ones after it are never requested, and no success line is
    printed. *)
Theorem plugins_stop_at_first_failure (w : World) (good rest : list string)
    (bad : string) :
  selection w = Some (good ++ bad :: rest) ->
  Forall (fun url => usable w url = true) good ->
  usable w bad = false ->
  (plugins w).2 = Raised downloadFailed /\
  fetched (plugins w).1 = good ++ [bad] /\
  written (plugins w).1 = target w <$> good /\
  last (plugins w).1 = Some (Fetch bad).
Proof.
  intros Hs Hg Hb. unfold plugins. rewrite Hs, downloadAll_app.
  destruct (downloadAll_usable w good [Prompt] Hg) as (Ho & Hf & Hw).
  destruct (downloadAll w good [Prompt]) as [log out]; cbn [fst snd] in *. subst out.
  cbn [downloadAll]. rewrite download_spec, Hb. cbn [fst snd].
  rewrite fetched_app, written_app, Hf, Hw, last_snoc. cbn.
  by rewrite !app_nil_r.
Qed.

Lemma plugins_stop_at_first_failure_witness :
  let w := registry (Some (["https://sern.dev/plugins/publish.ts"] ++
                           "https://sern.dev/plugins/empty.ts" ::
                           ["https://sern.dev/plugins/cooldown.ts"])) true in
  (plugins w).2 = Raised downloadFailed /\
  fetched (plugins w).1 = ["https://sern.dev/plugins/publish.ts"] ++
                          ["https://sern.dev/plugins/empty.ts"] /\
  written (plugins w).1 = target w <$> ["https://sern.dev/plugins/publish.ts"] /\
  last (plugins w).1 = Some (Fetch "https://sern.dev/plugins/empty.ts").
Proof.
  intros w.
  apply (plugins_stop_at_first_failure w ["https://sern.dev/plugins/publish.ts"]
           ["https://sern.dev/plugins/cooldown.ts"]
           "https://sern.dev/plugins/empty.ts"); [reflexivity| |reflexivity].
  repeat constructor.
Defined.

End PluginsExtras.
